(** * train.py: configuration-to-training-call pipeline

    A shallow embedding of [src/train.py].  The script talks to a deep-learning
    framework through constructor and query calls; every such call is an
    event of an interaction signature, and each Python function of the script
    is a finite program over that signature.  Python exceptions are a
    terminal node of the program. *)

From Stdlib Require Import ZArith List String Ascii Bool Lia.
From Stdlib Require Import PrimFloat SpecFloat FloatOps.
Import ListNotations.

Local Open Scope string_scope.
Local Open Scope Z_scope.

(** ** Python values read from the configuration *)

(** A number of the configuration file is a Python [int] or a Python
    [float] (IEEE binary64). *)
Inductive pynum : Type :=
| PInt (z : Z)
| PFloat (f : float).

Inductive pyval : Type :=
| VNone
| VBool (b : bool)
| VNum (n : pynum)
| VStr (s : string).

(** The exceptions the script and the interpreter's arithmetic can raise.
    An exception carries its [args] tuple, as Python's does. *)
Inductive exn : Type :=
| ValueError (args : list pyval)
| ZeroDivisionError
| OverflowError
| KeyError (key : string)
| FrameworkError (what : string).

Inductive result (A : Type) : Type :=
| Ok (a : A)
| Err (e : exn).
Arguments Ok {A} a.
Arguments Err {A} e.

Definition rbind {A B} (r : result A) (k : A -> result B) : result B :=
  match r with
  | Ok a => k a
  | Err e => Err e
  end.

(** ** Arithmetic of [int(a / b * c)] under [from __future__ import division] *)

Module PyArith.

Definition prec : Z := 53.
Definition emax : Z := 1024.

(** [float(z)]: nearest-even rounding; an [int] beyond the largest
    finite double raises [OverflowError]. *)
Definition float_of_int (z : Z) : result float :=
  match binary_normalize prec emax z 0 false with
  | S754_infinity _ => Err OverflowError
  | sf => Ok (SF2Prim sf)
  end.

Definition to_float (n : pynum) : result float :=
  match n with
  | PInt z => float_of_int z
  | PFloat f => Ok f
  end.

(** [x / y] on two [int]s: the correctly rounded quotient.  The quotient
    is computed with 64 extra bits and a sticky bit, then rounded once. *)
Definition int_true_divide (x y : Z) : result float :=
  if y =? 0 then Err ZeroDivisionError
  else if x =? 0 then Ok (if y <? 0 then (-0)%float else 0%float)
  else
    let k := Z.max 0 (Z.log2 (Z.abs y) - Z.log2 (Z.abs x)) + 64 in
    let num := Z.shiftl (Z.abs x) k in
    let q := num / Z.abs y in
    let sticky := if num mod Z.abs y =? 0 then 0 else 1 in
    let m := 2 * q + sticky in
    let sm := if Bool.eqb (x <? 0) (y <? 0) then m else - m in
    match binary_normalize prec emax sm (- k - 1) false with
    | S754_infinity _ => Err OverflowError
    | sf => Ok (SF2Prim sf)
    end.

Definition is_zero (n : pynum) : bool :=
  match n with
  | PInt z => z =? 0
  | PFloat f => PrimFloat.is_zero f
  end.

(** [a / b]: true division.  With a [float] operand both operands are
    converted first, then the divisor is compared with zero; an [int]
    divisor converts to zero only if it is zero, so the comparison is
    made on the operand. *)
Definition truediv (a b : pynum) : result float :=
  match a, b with
  | PInt x, PInt y => int_true_divide x y
  | _, _ =>
      rbind (to_float a) (fun x =>
      rbind (to_float b) (fun y =>
      if is_zero b then Err ZeroDivisionError
      else Ok (x / y)%float))
  end.

(** [x * c] where [x] is already a [float]. *)
Definition float_mul (x : float) (c : pynum) : result float :=
  rbind (to_float c) (fun y => Ok (x * y)%float).

(** [int(x)] on a [float]: truncation toward zero. *)
Definition int_of_float (x : float) : result Z :=
  match Prim2SF x with
  | S754_nan => Err (ValueError [VStr "cannot convert float NaN to integer"])
  | S754_infinity _ =>
      Err OverflowError
  | S754_zero _ => Ok 0
  | S754_finite s m e =>
      let mag := if 0 <=? e then Z.shiftl (Zpos m) e
                 else Z.shiftr (Zpos m) (- e) in
      Ok (if s then - mag else mag)
  end.

End PyArith.

(** ** The configuration record

    [cfg] is the object returned by [parse_config_file]; the script reads it
    by attribute.  The fields are the attributes [train.py] reads: counts
    and hyperparameters are numbers, names are strings, switches are
    booleans, and [IMAGE_PROCESSING] is the nested dictionary handed to the
    input pipeline. *)

Record session_config : Type := {
  LOG_DEVICE_PLACEMENT : bool;
  PER_PROCESS_GPU_MEMORY_FRACTION : pynum
}.

Record config : Type := {
  NUM_TRAIN_EXAMPLES : pynum;
  BATCH_SIZE : pynum;
  NUM_EPOCHS_PER_DELAY : pynum;
  LEARNING_RATE_DECAY_TYPE : string;
  INITIAL_LEARNING_RATE : pynum;
  LEARNING_RATE_DECAY_FACTOR : pynum;
  LEARNING_RATE_STAIRCASE : bool;
  END_LEARNING_RATE : pynum;
  OPTIMIZER : string;
  ADADELTA_RHO : pynum;
  OPTIMIZER_EPSILON : pynum;
  ADAGRAD_INITIAL_ACCUMULATOR_VALUE : pynum;
  ADAM_BETA1 : pynum;
  ADAM_BETA2 : pynum;
  FTRL_LEARNING_RATE_POWER : pynum;
  FTRL_INITIAL_ACCUMULATOR_VALUE : pynum;
  FTRL_L1 : pynum;
  FTRL_L2 : pynum;
  MOMENTUM : pynum;
  RMSPROP_DECAY : pynum;
  IMAGE_PROCESSING : list (string * pyval);
  NUM_INPUT_THREADS : pynum;
  SHUFFLE_QUEUE : bool;
  RANDOM_SEED : pynum;
  QUEUE_CAPACITY : pynum;
  QUEUE_MIN : pynum;
  NUM_CLASSES : pynum;
  MODEL_NAME : string;
  WEIGHT_DECAY : pynum;
  BATCHNORM_MOVING_AVERAGE_DECAY : pynum;
  BATCHNORM_EPSILON : pynum;
  DROPOUT_KEEP_PROB : pynum;
  MOVING_AVERAGE_DECAY : pynum;
  SESSION_CONFIG : session_config;
  MAX_TO_KEEP : pynum;
  KEEP_CHECKPOINT_EVERY_N_HOURS : pynum;
  NUM_TRAIN_ITERATIONS : pynum;
  SAVE_SUMMARY_SECS : pynum;
  SAVE_INTERVAL_SECS : pynum;
  LOG_EVERY_N_STEPS : pynum
}.

(** Attribute assignment [cfg.F = v], one setter for each attribute that
    [main] assigns. *)
Definition set_NUM_TRAIN_ITERATIONS (v : pynum) (c : config) : config :=
  {| NUM_TRAIN_EXAMPLES := NUM_TRAIN_EXAMPLES c;
     BATCH_SIZE := BATCH_SIZE c;
     NUM_EPOCHS_PER_DELAY := NUM_EPOCHS_PER_DELAY c;
     LEARNING_RATE_DECAY_TYPE := LEARNING_RATE_DECAY_TYPE c;
     INITIAL_LEARNING_RATE := INITIAL_LEARNING_RATE c;
     LEARNING_RATE_DECAY_FACTOR := LEARNING_RATE_DECAY_FACTOR c;
     LEARNING_RATE_STAIRCASE := LEARNING_RATE_STAIRCASE c;
     END_LEARNING_RATE := END_LEARNING_RATE c;
     OPTIMIZER := OPTIMIZER c;
     ADADELTA_RHO := ADADELTA_RHO c;
     OPTIMIZER_EPSILON := OPTIMIZER_EPSILON c;
     ADAGRAD_INITIAL_ACCUMULATOR_VALUE := ADAGRAD_INITIAL_ACCUMULATOR_VALUE c;
     ADAM_BETA1 := ADAM_BETA1 c;
     ADAM_BETA2 := ADAM_BETA2 c;
     FTRL_LEARNING_RATE_POWER := FTRL_LEARNING_RATE_POWER c;
     FTRL_INITIAL_ACCUMULATOR_VALUE := FTRL_INITIAL_ACCUMULATOR_VALUE c;
     FTRL_L1 := FTRL_L1 c;
     FTRL_L2 := FTRL_L2 c;
     MOMENTUM := MOMENTUM c;
     RMSPROP_DECAY := RMSPROP_DECAY c;
     IMAGE_PROCESSING := IMAGE_PROCESSING c;
     NUM_INPUT_THREADS := NUM_INPUT_THREADS c;
     SHUFFLE_QUEUE := SHUFFLE_QUEUE c;
     RANDOM_SEED := RANDOM_SEED c;
     QUEUE_CAPACITY := QUEUE_CAPACITY c;
     QUEUE_MIN := QUEUE_MIN c;
     NUM_CLASSES := NUM_CLASSES c;
     MODEL_NAME := MODEL_NAME c;
     WEIGHT_DECAY := WEIGHT_DECAY c;
     BATCHNORM_MOVING_AVERAGE_DECAY := BATCHNORM_MOVING_AVERAGE_DECAY c;
     BATCHNORM_EPSILON := BATCHNORM_EPSILON c;
     DROPOUT_KEEP_PROB := DROPOUT_KEEP_PROB c;
     MOVING_AVERAGE_DECAY := MOVING_AVERAGE_DECAY c;
     SESSION_CONFIG := SESSION_CONFIG c;
     MAX_TO_KEEP := MAX_TO_KEEP c;
     KEEP_CHECKPOINT_EVERY_N_HOURS := KEEP_CHECKPOINT_EVERY_N_HOURS c;
     NUM_TRAIN_ITERATIONS := v;
     SAVE_SUMMARY_SECS := SAVE_SUMMARY_SECS c;
     SAVE_INTERVAL_SECS := SAVE_INTERVAL_SECS c;
     LOG_EVERY_N_STEPS := LOG_EVERY_N_STEPS c |}.

Definition set_LEARNING_RATE_DECAY_TYPE (v : string) (c : config) : config :=
  {| NUM_TRAIN_EXAMPLES := NUM_TRAIN_EXAMPLES c;
     BATCH_SIZE := BATCH_SIZE c;
     NUM_EPOCHS_PER_DELAY := NUM_EPOCHS_PER_DELAY c;
     LEARNING_RATE_DECAY_TYPE := v;
     INITIAL_LEARNING_RATE := INITIAL_LEARNING_RATE c;
     LEARNING_RATE_DECAY_FACTOR := LEARNING_RATE_DECAY_FACTOR c;
     LEARNING_RATE_STAIRCASE := LEARNING_RATE_STAIRCASE c;
     END_LEARNING_RATE := END_LEARNING_RATE c;
     OPTIMIZER := OPTIMIZER c;
     ADADELTA_RHO := ADADELTA_RHO c;
     OPTIMIZER_EPSILON := OPTIMIZER_EPSILON c;
     ADAGRAD_INITIAL_ACCUMULATOR_VALUE := ADAGRAD_INITIAL_ACCUMULATOR_VALUE c;
     ADAM_BETA1 := ADAM_BETA1 c;
     ADAM_BETA2 := ADAM_BETA2 c;
     FTRL_LEARNING_RATE_POWER := FTRL_LEARNING_RATE_POWER c;
     FTRL_INITIAL_ACCUMULATOR_VALUE := FTRL_INITIAL_ACCUMULATOR_VALUE c;
     FTRL_L1 := FTRL_L1 c;
     FTRL_L2 := FTRL_L2 c;
     MOMENTUM := MOMENTUM c;
     RMSPROP_DECAY := RMSPROP_DECAY c;
     IMAGE_PROCESSING := IMAGE_PROCESSING c;
     NUM_INPUT_THREADS := NUM_INPUT_THREADS c;
     SHUFFLE_QUEUE := SHUFFLE_QUEUE c;
     RANDOM_SEED := RANDOM_SEED c;
     QUEUE_CAPACITY := QUEUE_CAPACITY c;
     QUEUE_MIN := QUEUE_MIN c;
     NUM_CLASSES := NUM_CLASSES c;
     MODEL_NAME := MODEL_NAME c;
     WEIGHT_DECAY := WEIGHT_DECAY c;
     BATCHNORM_MOVING_AVERAGE_DECAY := BATCHNORM_MOVING_AVERAGE_DECAY c;
     BATCHNORM_EPSILON := BATCHNORM_EPSILON c;
     DROPOUT_KEEP_PROB := DROPOUT_KEEP_PROB c;
     MOVING_AVERAGE_DECAY := MOVING_AVERAGE_DECAY c;
     SESSION_CONFIG := SESSION_CONFIG c;
     MAX_TO_KEEP := MAX_TO_KEEP c;
     KEEP_CHECKPOINT_EVERY_N_HOURS := KEEP_CHECKPOINT_EVERY_N_HOURS c;
     NUM_TRAIN_ITERATIONS := NUM_TRAIN_ITERATIONS c;
     SAVE_SUMMARY_SECS := SAVE_SUMMARY_SECS c;
     SAVE_INTERVAL_SECS := SAVE_INTERVAL_SECS c;
     LOG_EVERY_N_STEPS := LOG_EVERY_N_STEPS c |}.

Definition set_INITIAL_LEARNING_RATE (v : pynum) (c : config) : config :=
  {| NUM_TRAIN_EXAMPLES := NUM_TRAIN_EXAMPLES c;
     BATCH_SIZE := BATCH_SIZE c;
     NUM_EPOCHS_PER_DELAY := NUM_EPOCHS_PER_DELAY c;
     LEARNING_RATE_DECAY_TYPE := LEARNING_RATE_DECAY_TYPE c;
     INITIAL_LEARNING_RATE := v;
     LEARNING_RATE_DECAY_FACTOR := LEARNING_RATE_DECAY_FACTOR c;
     LEARNING_RATE_STAIRCASE := LEARNING_RATE_STAIRCASE c;
     END_LEARNING_RATE := END_LEARNING_RATE c;
     OPTIMIZER := OPTIMIZER c;
     ADADELTA_RHO := ADADELTA_RHO c;
     OPTIMIZER_EPSILON := OPTIMIZER_EPSILON c;
     ADAGRAD_INITIAL_ACCUMULATOR_VALUE := ADAGRAD_INITIAL_ACCUMULATOR_VALUE c;
     ADAM_BETA1 := ADAM_BETA1 c;
     ADAM_BETA2 := ADAM_BETA2 c;
     FTRL_LEARNING_RATE_POWER := FTRL_LEARNING_RATE_POWER c;
     FTRL_INITIAL_ACCUMULATOR_VALUE := FTRL_INITIAL_ACCUMULATOR_VALUE c;
     FTRL_L1 := FTRL_L1 c;
     FTRL_L2 := FTRL_L2 c;
     MOMENTUM := MOMENTUM c;
     RMSPROP_DECAY := RMSPROP_DECAY c;
     IMAGE_PROCESSING := IMAGE_PROCESSING c;
     NUM_INPUT_THREADS := NUM_INPUT_THREADS c;
     SHUFFLE_QUEUE := SHUFFLE_QUEUE c;
     RANDOM_SEED := RANDOM_SEED c;
     QUEUE_CAPACITY := QUEUE_CAPACITY c;
     QUEUE_MIN := QUEUE_MIN c;
     NUM_CLASSES := NUM_CLASSES c;
     MODEL_NAME := MODEL_NAME c;
     WEIGHT_DECAY := WEIGHT_DECAY c;
     BATCHNORM_MOVING_AVERAGE_DECAY := BATCHNORM_MOVING_AVERAGE_DECAY c;
     BATCHNORM_EPSILON := BATCHNORM_EPSILON c;
     DROPOUT_KEEP_PROB := DROPOUT_KEEP_PROB c;
     MOVING_AVERAGE_DECAY := MOVING_AVERAGE_DECAY c;
     SESSION_CONFIG := SESSION_CONFIG c;
     MAX_TO_KEEP := MAX_TO_KEEP c;
     KEEP_CHECKPOINT_EVERY_N_HOURS := KEEP_CHECKPOINT_EVERY_N_HOURS c;
     NUM_TRAIN_ITERATIONS := NUM_TRAIN_ITERATIONS c;
     SAVE_SUMMARY_SECS := SAVE_SUMMARY_SECS c;
     SAVE_INTERVAL_SECS := SAVE_INTERVAL_SECS c;
     LOG_EVERY_N_STEPS := LOG_EVERY_N_STEPS c |}.

Definition set_BATCH_SIZE (v : pynum) (c : config) : config :=
  {| NUM_TRAIN_EXAMPLES := NUM_TRAIN_EXAMPLES c;
     BATCH_SIZE := v;
     NUM_EPOCHS_PER_DELAY := NUM_EPOCHS_PER_DELAY c;
     LEARNING_RATE_DECAY_TYPE := LEARNING_RATE_DECAY_TYPE c;
     INITIAL_LEARNING_RATE := INITIAL_LEARNING_RATE c;
     LEARNING_RATE_DECAY_FACTOR := LEARNING_RATE_DECAY_FACTOR c;
     LEARNING_RATE_STAIRCASE := LEARNING_RATE_STAIRCASE c;
     END_LEARNING_RATE := END_LEARNING_RATE c;
     OPTIMIZER := OPTIMIZER c;
     ADADELTA_RHO := ADADELTA_RHO c;
     OPTIMIZER_EPSILON := OPTIMIZER_EPSILON c;
     ADAGRAD_INITIAL_ACCUMULATOR_VALUE := ADAGRAD_INITIAL_ACCUMULATOR_VALUE c;
     ADAM_BETA1 := ADAM_BETA1 c;
     ADAM_BETA2 := ADAM_BETA2 c;
     FTRL_LEARNING_RATE_POWER := FTRL_LEARNING_RATE_POWER c;
     FTRL_INITIAL_ACCUMULATOR_VALUE := FTRL_INITIAL_ACCUMULATOR_VALUE c;
     FTRL_L1 := FTRL_L1 c;
     FTRL_L2 := FTRL_L2 c;
     MOMENTUM := MOMENTUM c;
     RMSPROP_DECAY := RMSPROP_DECAY c;
     IMAGE_PROCESSING := IMAGE_PROCESSING c;
     NUM_INPUT_THREADS := NUM_INPUT_THREADS c;
     SHUFFLE_QUEUE := SHUFFLE_QUEUE c;
     RANDOM_SEED := RANDOM_SEED c;
     QUEUE_CAPACITY := QUEUE_CAPACITY c;
     QUEUE_MIN := QUEUE_MIN c;
     NUM_CLASSES := NUM_CLASSES c;
     MODEL_NAME := MODEL_NAME c;
     WEIGHT_DECAY := WEIGHT_DECAY c;
     BATCHNORM_MOVING_AVERAGE_DECAY := BATCHNORM_MOVING_AVERAGE_DECAY c;
     BATCHNORM_EPSILON := BATCHNORM_EPSILON c;
     DROPOUT_KEEP_PROB := DROPOUT_KEEP_PROB c;
     MOVING_AVERAGE_DECAY := MOVING_AVERAGE_DECAY c;
     SESSION_CONFIG := SESSION_CONFIG c;
     MAX_TO_KEEP := MAX_TO_KEEP c;
     KEEP_CHECKPOINT_EVERY_N_HOURS := KEEP_CHECKPOINT_EVERY_N_HOURS c;
     NUM_TRAIN_ITERATIONS := NUM_TRAIN_ITERATIONS c;
     SAVE_SUMMARY_SECS := SAVE_SUMMARY_SECS c;
     SAVE_INTERVAL_SECS := SAVE_INTERVAL_SECS c;
     LOG_EVERY_N_STEPS := LOG_EVERY_N_STEPS c |}.

Definition set_MODEL_NAME (v : string) (c : config) : config :=
  {| NUM_TRAIN_EXAMPLES := NUM_TRAIN_EXAMPLES c;
     BATCH_SIZE := BATCH_SIZE c;
     NUM_EPOCHS_PER_DELAY := NUM_EPOCHS_PER_DELAY c;
     LEARNING_RATE_DECAY_TYPE := LEARNING_RATE_DECAY_TYPE c;
     INITIAL_LEARNING_RATE := INITIAL_LEARNING_RATE c;
     LEARNING_RATE_DECAY_FACTOR := LEARNING_RATE_DECAY_FACTOR c;
     LEARNING_RATE_STAIRCASE := LEARNING_RATE_STAIRCASE c;
     END_LEARNING_RATE := END_LEARNING_RATE c;
     OPTIMIZER := OPTIMIZER c;
     ADADELTA_RHO := ADADELTA_RHO c;
     OPTIMIZER_EPSILON := OPTIMIZER_EPSILON c;
     ADAGRAD_INITIAL_ACCUMULATOR_VALUE := ADAGRAD_INITIAL_ACCUMULATOR_VALUE c;
     ADAM_BETA1 := ADAM_BETA1 c;
     ADAM_BETA2 := ADAM_BETA2 c;
     FTRL_LEARNING_RATE_POWER := FTRL_LEARNING_RATE_POWER c;
     FTRL_INITIAL_ACCUMULATOR_VALUE := FTRL_INITIAL_ACCUMULATOR_VALUE c;
     FTRL_L1 := FTRL_L1 c;
     FTRL_L2 := FTRL_L2 c;
     MOMENTUM := MOMENTUM c;
     RMSPROP_DECAY := RMSPROP_DECAY c;
     IMAGE_PROCESSING := IMAGE_PROCESSING c;
     NUM_INPUT_THREADS := NUM_INPUT_THREADS c;
     SHUFFLE_QUEUE := SHUFFLE_QUEUE c;
     RANDOM_SEED := RANDOM_SEED c;
     QUEUE_CAPACITY := QUEUE_CAPACITY c;
     QUEUE_MIN := QUEUE_MIN c;
     NUM_CLASSES := NUM_CLASSES c;
     MODEL_NAME := v;
     WEIGHT_DECAY := WEIGHT_DECAY c;
     BATCHNORM_MOVING_AVERAGE_DECAY := BATCHNORM_MOVING_AVERAGE_DECAY c;
     BATCHNORM_EPSILON := BATCHNORM_EPSILON c;
     DROPOUT_KEEP_PROB := DROPOUT_KEEP_PROB c;
     MOVING_AVERAGE_DECAY := MOVING_AVERAGE_DECAY c;
     SESSION_CONFIG := SESSION_CONFIG c;
     MAX_TO_KEEP := MAX_TO_KEEP c;
     KEEP_CHECKPOINT_EVERY_N_HOURS := KEEP_CHECKPOINT_EVERY_N_HOURS c;
     NUM_TRAIN_ITERATIONS := NUM_TRAIN_ITERATIONS c;
     SAVE_SUMMARY_SECS := SAVE_SUMMARY_SECS c;
     SAVE_INTERVAL_SECS := SAVE_INTERVAL_SECS c;
     LOG_EVERY_N_STEPS := LOG_EVERY_N_STEPS c |}.

(** ** Framework objects

    Tensors, optimizers, savers and the like are owned by the framework; the
    script only holds references to them. *)

Inductive kind : Type :=
| KGraph | KTensor | KOptimizer | KOperation | KArgScope | KEma
| KGpuOptions | KConfigProto | KSaver | KInitFn | KArgScopeFn | KNetworkFn.

Inductive handle (k : kind) : Type :=
| Handle (id : N).
Arguments Handle {k} id.

Abbreviation graph := (handle KGraph).
Abbreviation tensor := (handle KTensor).
Abbreviation optimizer := (handle KOptimizer).
Abbreviation operation := (handle KOperation).
Abbreviation arg_scope := (handle KArgScope).
Abbreviation moving_average := (handle KEma).
Abbreviation gpu_options := (handle KGpuOptions).
Abbreviation config_proto := (handle KConfigProto).
Abbreviation saver := (handle KSaver).
Abbreviation init_fn := (handle KInitFn).
Abbreviation arg_scope_fn := (handle KArgScopeFn).
Abbreviation network_fn := (handle KNetworkFn).

(** A variable of the graph: [var.name] and [var.op.name]. *)
Record variable : Type := {
  var_name : string;
  var_op_name : string
}.

(** The keys of [tf.GraphKeys] the script uses, indexed by what the
    collection holds. *)
Inductive graph_key : Type -> Type :=
| TRAINABLE_VARIABLES : graph_key variable
| SUMMARIES : graph_key tensor
| UPDATE_OPS : graph_key operation.

(** The command line, as [argparse] returns it ([parse_args]). *)
Record arguments : Type := {
  tfrecords : list string;
  logdir : string;
  config_file : string;
  pretrained_model : option string;
  trainable_scopes : option (list string);
  checkpoint_exclude_scopes : option (list string);
  max_number_of_steps : option Z;
  learning_rate_decay_type : option string;
  learning_rate : option float;
  batch_size : option Z;
  model_name : option string
}.

(** ** Calls out of the script

    One constructor for each function of the framework (and of the
    repository's [config], [nets] and [preprocessing] packages, whose code
    is not part of [train.py]) that the script calls, with the arguments
    the script passes; the index is the type of the answer.  A call made
    inside a [with slim.arg_scope(...)] block carries that scope as its
    [scope] argument; [isdir] is [os.path.isdir]. *)
Inductive tfE : Type -> Type :=
| logging_set_verbosity (level : string) : tfE unit
| logging_info (msg : string) : tfE unit
| Graph : tfE graph
| as_default (g : graph) : tfE unit
| get_or_create_global_step : tfE tensor
| exponential_decay (learning_rate : pynum) (global_step : tensor)
    (decay_steps : Z) (decay_rate : pynum) (staircase : bool)
    (name : string) : tfE tensor
| constant (value : pynum) (name : string) : tfE tensor
| polynomial_decay (learning_rate : pynum) (global_step : tensor)
    (decay_steps : Z) (end_learning_rate : pynum) (power : pynum)
    (cycle : bool) (name : string) : tfE tensor
| AdadeltaOptimizer (learning_rate : tensor) (rho epsilon : pynum)
    : tfE optimizer
| AdagradOptimizer (learning_rate : tensor)
    (initial_accumulator_value : pynum) : tfE optimizer
| AdamOptimizer (learning_rate : tensor) (beta1 beta2 epsilon : pynum)
    : tfE optimizer
| FtrlOptimizer (learning_rate : tensor)
    (learning_rate_power initial_accumulator_value
     l1_regularization_strength l2_regularization_strength : pynum)
    : tfE optimizer
| MomentumOptimizer (learning_rate : tensor) (momentum : pynum)
    (name : string) : tfE optimizer
| RMSPropOptimizer (learning_rate : tensor)
    (decay momentum epsilon : pynum) : tfE optimizer
| GradientDescentOptimizer (learning_rate : tensor) : tfE optimizer
| trainable_variables : tfE (list variable)
| get_collection {T : Type} (key : graph_key T) (scope : option string)
    : tfE (list T)
| add_to_collection {T : Type} (key : graph_key T) (value : T) : tfE unit
| get_model_variables : tfE (list variable)
| latest_checkpoint (checkpoint_dir : string) : tfE (option string)
| isdir (path : string) : tfE bool
| assign_from_checkpoint_fn (model_path : string)
    (var_list : list variable) (ignore_missing_vars : bool) : tfE init_fn
| input_nodes (tfrecords : list string) (cfg : list (string * pyval))
    (num_epochs : option Z) (batch_size num_threads : pynum)
    (shuffle_batch : bool) (random_seed capacity min_after_dequeue : pynum)
    (add_summaries : bool) (input_type : string)
    : tfE (list (string * tensor))
| one_hot_encoding (labels : tensor) (num_classes : pynum) : tfE tensor
| arg_scopes_map (model_name : string) : tfE arg_scope_fn
| apply_arg_scope_fn (fn : arg_scope_fn)
    (weight_decay batch_norm_decay batch_norm_epsilon : pynum)
    : tfE arg_scope
| networks_map (model_name : string) : tfE network_fn
| apply_network_fn (fn : network_fn) (scope : arg_scope) (inputs : tensor)
    (num_classes dropout_keep_prob : pynum) (is_training : bool)
    : tfE (tensor * list (string * tensor))
| softmax_cross_entropy (scope : arg_scope) (logits onehot_labels : tensor)
    (label_smoothing weights : pynum) (loss_scope : option string)
    : tfE tensor
| get_total_loss : tfE tensor
| ExponentialMovingAverage (decay : pynum) (num_updates : tensor)
    : tfE moving_average
| ema_apply (ema : moving_average) (var_list : list variable)
    : tfE operation
| create_train_op (total_loss : tensor) (opt : optimizer)
    (variables_to_train : list variable) : tfE tensor
| summary_scalar (name : string) (t : tensor) : tfE tensor
| summary_merge (inputs : list tensor) : tfE tensor
| GPUOptions (per_process_gpu_memory_fraction : pynum) : tfE gpu_options
| ConfigProto (log_device_placement allow_soft_placement : bool)
    (gpu : gpu_options) : tfE config_proto
| Saver (max_to_keep keep_checkpoint_every_n_hours : pynum) : tfE saver
| learning_train (train_op : tensor) (logdir : string)
    (init : option init_fn)
    (number_of_steps save_summaries_secs save_interval_secs : pynum)
    (sv : saver) (session : config_proto) (summary_op : tensor)
    (log_every_n_steps : pynum) : tfE unit
| parse_args : tfE arguments
| parse_config_file (path : string) : tfE config.

(** ** Programs

    A Python function body is a finite tree: it returns, raises, or calls
    out and continues with the answer. *)
Inductive prog (R : Type) : Type :=
| Ret (r : R)
| Raise (e : exn)
| Vis {X : Type} (c : tfE X) (k : X -> prog R).
Arguments Ret {R} r.
Arguments Raise {R} e.
Arguments Vis {R X} c k.

Fixpoint bind {A B : Type} (p : prog A) (f : A -> prog B) : prog B :=
  match p with
  | Ret a => f a
  | Raise e => Raise e
  | Vis c k => Vis c (fun x => bind (k x) f)
  end.

Definition call {X : Type} (c : tfE X) : prog X := Vis c Ret.

Definition lift {A : Type} (r : result A) : prog A :=
  match r with
  | Ok a => Ret a
  | Err e => Raise e
  end.

Declare Scope prog_scope.
Delimit Scope prog_scope with prog.
Notation "x <- p ;; q" := (bind p (fun x => q))
  (at level 61, p at next level, right associativity) : prog_scope.
Notation "' pat <- p ;; q" := (bind p (fun x => match x with pat => q end))
  (at level 61, pat pattern, p at next level, right associativity)
  : prog_scope.
Notation "p ;; q" := (bind p (fun _ => q))
  (at level 61, right associativity) : prog_scope.
Local Open Scope prog_scope.

(** *** Running a program against the framework

    The framework is a state machine answering each call, or raising.  A
    run records each answered call, in order. *)
Definition handler (S : Type) : Type :=
  forall X : Type, tfE X -> S -> result X * S.

Inductive event : Type :=
| Called {X : Type} (c : tfE X) (answer : X).

Record outcome (S R : Type) : Type := {
  trace : list event;
  value : result R;
  final : S
}.
Arguments trace {S R} o.
Arguments value {S R} o.
Arguments final {S R} o.

Fixpoint run {S R : Type} (h : handler S) (p : prog R) (s : S)
  : outcome S R :=
  match p with
  | Ret r => {| trace := []; value := Ok r; final := s |}
  | Raise e => {| trace := []; value := Err e; final := s |}
  | Vis c k =>
      match h _ c s with
      | (Ok x, s') =>
          let o := run h (k x) s' in
          {| trace := Called c x :: trace o; value := value o;
             final := final o |}
      | (Err e, s') => {| trace := []; value := Err e; final := s' |}
      end
  end.

(** [raises p e]: some path of [p] ends in the script raising [e]. *)
Fixpoint raises {R : Type} (p : prog R) (e : exn) : Prop :=
  match p with
  | Ret _ => False
  | Raise e' => e' = e
  | Vis c k => exists x, raises (k x) e
  end.

(** ** Strings and dictionaries of the interpreter

    A Python 3 [str] is held as its UTF-8 encoding, one [ascii] for each
    byte. *)

(** [str.isspace] on a code point: the ASCII controls 9 to 13 and 28 to
    31, the space, and the Unicode whitespace U+0085, U+00A0, U+1680,
    U+2000 to U+200A, U+2028, U+2029, U+202F, U+205F and U+3000. *)
Definition is_space (cp : N) : bool :=
  ((9 <=? cp) && (cp <=? 13) || (28 <=? cp) && (cp <=? 32)
   || (cp =? 133) || (cp =? 160) || (cp =? 5760)
   || (8192 <=? cp) && (cp <=? 8202)
   || (cp =? 8232) || (cp =? 8233) || (cp =? 8239) || (cp =? 8287)
   || (cp =? 12288))%N.

(** A continuation byte of UTF-8. *)
Definition continuation (b : ascii) : bool :=
  ((128 <=? N_of_ascii b) && (N_of_ascii b <? 192))%N.

(** A whitespace character encoded on one, two or three bytes (no
    whitespace needs four). *)
Definition space1 (a : ascii) : bool :=
  ((N_of_ascii a <? 128) && is_space (N_of_ascii a))%N.

Definition space2 (a b : ascii) : bool :=
  ((194 <=? N_of_ascii a) && (N_of_ascii a <? 224) && continuation b
   && is_space ((N_of_ascii a - 192) * 64 + (N_of_ascii b - 128)))%N.

Definition space3 (a b c : ascii) : bool :=
  ((224 <=? N_of_ascii a) && (N_of_ascii a <? 240)
   && continuation b && continuation c
   && (2048 <=? (N_of_ascii a - 224) * 4096 + (N_of_ascii b - 128) * 64
                + (N_of_ascii c - 128))
   && is_space ((N_of_ascii a - 224) * 4096 + (N_of_ascii b - 128) * 64
                + (N_of_ascii c - 128)))%N.

(** The string is exactly one whitespace character. *)
Definition is_space_string (s : string) : bool :=
  match s with
  | String a EmptyString => space1 a
  | String a (String b EmptyString) => space2 a b
  | String a (String b (String c EmptyString)) => space3 a b c
  | _ => false
  end.

(** [s.lstrip()]: the leading whitespace characters are dropped. *)
Fixpoint lstrip (s : string) : string :=
  match s with
  | EmptyString => EmptyString
  | String a s1 =>
      if space1 a then lstrip s1
      else
        match s1 with
        | EmptyString => s
        | String b s2 =>
            if space2 a b then lstrip s2
            else
              match s2 with
              | EmptyString => s
              | String c s3 => if space3 a b c then lstrip s3 else s
              end
        end
  end.

(** [s.rstrip()]: from the right, what is left of the tail is kept unless
    the byte completes a whitespace character with it. *)
Fixpoint rstrip (s : string) : string :=
  match s with
  | EmptyString => EmptyString
  | String c s' =>
      if is_space_string (String c (rstrip s')) then EmptyString
      else String c (rstrip s')
  end.

(** [s.strip()] *)
Definition strip (s : string) : string := rstrip (lstrip s).

(** [name.startswith(p)] *)
Definition startswith (name p : string) : bool := String.prefix p name.

(** [d[key]] and [key in d] on a dictionary with string keys. *)
Fixpoint dict_get {A : Type} (d : list (string * A)) (key : string)
  : result A :=
  match d with
  | [] => Err (KeyError key)
  | (k, v) :: d' => if (k =? key)%string then Ok v else dict_get d' key
  end.

Definition dict_in {A : Type} (key : string) (d : list (string * A)) : bool :=
  existsb (fun kv => (fst kv =? key)%string) d.

(** Truth value of [tf.train.latest_checkpoint(...)], a path or [None]. *)
Definition truthy (p : option string) : bool :=
  match p with
  | Some (String _ _) => true
  | _ => false
  end.

(** ** The functions of train.py *)

(** The local [decay_steps] of [_configure_learning_rate]:
    [int(cfg.NUM_TRAIN_EXAMPLES / cfg.BATCH_SIZE * cfg.NUM_EPOCHS_PER_DELAY)]. *)
Definition decay_steps (cfg : config) : result Z :=
  rbind (PyArith.truediv (NUM_TRAIN_EXAMPLES cfg) (BATCH_SIZE cfg)) (fun q =>
  rbind (PyArith.float_mul q (NUM_EPOCHS_PER_DELAY cfg)) (fun x =>
  PyArith.int_of_float x)).

Definition _configure_learning_rate (global_step : tensor) (cfg : config)
  : prog tensor :=
  decay_steps <- lift (decay_steps cfg) ;;
  if (LEARNING_RATE_DECAY_TYPE cfg =? "exponential")%string then
    call (exponential_decay (INITIAL_LEARNING_RATE cfg)
                            global_step
                            decay_steps
                            (LEARNING_RATE_DECAY_FACTOR cfg)
                            (LEARNING_RATE_STAIRCASE cfg)
                            "exponential_decay_learning_rate")
  else if (LEARNING_RATE_DECAY_TYPE cfg =? "fixed")%string then
    call (constant (INITIAL_LEARNING_RATE cfg) "fixed_learning_rate")
  else if (LEARNING_RATE_DECAY_TYPE cfg =? "polynomial")%string then
    call (polynomial_decay (INITIAL_LEARNING_RATE cfg)
                           global_step
                           decay_steps
                           (END_LEARNING_RATE cfg)
                           (PFloat 1)
                           false
                           "polynomial_decay_learning_rate")
  else
    Raise (ValueError [VStr "learning_rate_decay_type [%s] was not recognized";
                       VStr (LEARNING_RATE_DECAY_TYPE cfg)]).

Definition _configure_optimizer (learning_rate : tensor) (cfg : config)
  : prog optimizer :=
  optimizer <-
    (if (OPTIMIZER cfg =? "adadelta")%string then
       call (AdadeltaOptimizer learning_rate
               (ADADELTA_RHO cfg)
               (OPTIMIZER_EPSILON cfg))
     else if (OPTIMIZER cfg =? "adagrad")%string then
       call (AdagradOptimizer learning_rate
               (ADAGRAD_INITIAL_ACCUMULATOR_VALUE cfg))
     else if (OPTIMIZER cfg =? "adam")%string then
       call (AdamOptimizer learning_rate
               (ADAM_BETA1 cfg)
               (ADAM_BETA2 cfg)
               (OPTIMIZER_EPSILON cfg))
     else if (OPTIMIZER cfg =? "ftrl")%string then
       call (FtrlOptimizer learning_rate
               (FTRL_LEARNING_RATE_POWER cfg)
               (FTRL_INITIAL_ACCUMULATOR_VALUE cfg)
               (FTRL_L1 cfg)
               (FTRL_L2 cfg))
     else if (OPTIMIZER cfg =? "momentum")%string then
       call (MomentumOptimizer learning_rate
               (MOMENTUM cfg)
               "Momentum")
     else if (OPTIMIZER cfg =? "rmsprop")%string then
       call (RMSPropOptimizer learning_rate
               (RMSPROP_DECAY cfg)
               (MOMENTUM cfg)
               (OPTIMIZER_EPSILON cfg))
     else if (OPTIMIZER cfg =? "sgd")%string then
       call (GradientDescentOptimizer learning_rate)
     else
       Raise (ValueError [VStr "Optimizer [%s] was not recognized";
                          VStr (OPTIMIZER cfg)])) ;;
  Ret optimizer.

(** The loop of [get_trainable_variables] over the stripped scopes. *)
Fixpoint extend_with_scopes (scopes : list string)
  (variables_to_train : list variable) : prog (list variable) :=
  match scopes with
  | [] => Ret variables_to_train
  | scope :: rest =>
      variables <- call (get_collection TRAINABLE_VARIABLES (Some scope)) ;;
      extend_with_scopes rest (variables_to_train ++ variables)
  end.

Definition get_trainable_variables (trainable_scopes : option (list string))
  : prog (list variable) :=
  match trainable_scopes with
  | None => call trainable_variables
  | Some scopes =>
      let trainable_scopes := map strip scopes in
      extend_with_scopes trainable_scopes []
  end.

(** The inner loop of [get_init_function]: leaves at the first exclusion
    the name starts with. *)
Fixpoint excluded (exclusions : list string) (name : string) : bool :=
  match exclusions with
  | [] => false
  | exclusion :: rest =>
      if startswith name exclusion then true else excluded rest name
  end.

(** The outer loop of [get_init_function]. *)
Fixpoint restore_loop (exclusions : list string) (vars : list variable)
  (variables_to_restore : list variable) : list variable :=
  match vars with
  | [] => variables_to_restore
  | var :: rest =>
      restore_loop exclusions rest
        (if negb (excluded exclusions (var_op_name var))
         then variables_to_restore ++ [var]
         else variables_to_restore)
  end.

Definition get_init_function (logdir : string)
  (pretrained_model_path : option string)
  (checkpoint_exclude_scopes : option (list string))
  : prog (option init_fn) :=
  match pretrained_model_path with
  | None => Ret None
  | Some pretrained_model_path =>
      existing <- call (latest_checkpoint logdir) ;;
      if truthy existing then
        call (logging_info
                ("Ignoring --pretrained_model_path because a checkpoint already exists in "
                 ++ logdir)) ;;
        Ret None
      else
        let exclusions :=
          match checkpoint_exclude_scopes with
          | Some ((_ :: _) as scopes) => map strip scopes
          | _ => []
          end in
        model_variables <- call get_model_variables ;;
        let variables_to_restore :=
          restore_loop exclusions model_variables [] in
        is_dir <- call (isdir pretrained_model_path) ;;
        checkpoint_path <-
          (if is_dir : bool then
             checkpoint_path <- call (latest_checkpoint pretrained_model_path) ;;
             match checkpoint_path with
             | None =>
                 Raise (ValueError
                          [VStr ("No model checkpoint file found in directory "
                                 ++ pretrained_model_path)])
             | Some checkpoint_path => Ret checkpoint_path
             end
           else Ret pretrained_model_path) ;;
        call (logging_info ("Fine-tuning from " ++ checkpoint_path)) ;;
        fn <- call (assign_from_checkpoint_fn checkpoint_path
                      variables_to_restore false) ;;
        Ret (Some fn)
  end.

Definition train (tfrecords : list string) (logdir : string) (cfg : config)
  (pretrained_model_path : option string)
  (trainable_scopes checkpoint_exclude_scopes : option (list string))
  : prog unit :=
  call (logging_set_verbosity "DEBUG") ;;
  g <- call Graph ;;
  (* with graph.as_default(): the rest of the function is the block. *)
  call (as_default g) ;;
  (* Create a variable to count the number of train() calls. *)
  global_step <- call get_or_create_global_step ;;
  (* Calculate the learning rate schedule. *)
  lr <- _configure_learning_rate global_step cfg ;;
  (* Create an optimizer that performs gradient descent. *)
  optimizer <- _configure_optimizer lr cfg ;;
  batch_dict <- call (input_nodes tfrecords
                        (IMAGE_PROCESSING cfg)
                        None
                        (BATCH_SIZE cfg)
                        (NUM_INPUT_THREADS cfg)
                        (SHUFFLE_QUEUE cfg)
                        (RANDOM_SEED cfg)
                        (QUEUE_CAPACITY cfg)
                        (QUEUE_MIN cfg)
                        true
                        "train") ;;
  labels <- lift (dict_get batch_dict "labels") ;;
  batched_one_hot_labels <- call (one_hot_encoding labels (NUM_CLASSES cfg)) ;;
  input_summaries <- call (get_collection SUMMARIES None) ;;
  scope_fn <- call (arg_scopes_map (MODEL_NAME cfg)) ;;
  arg_scope <- call (apply_arg_scope_fn scope_fn
                       (WEIGHT_DECAY cfg)
                       (BATCHNORM_MOVING_AVERAGE_DECAY cfg)
                       (BATCHNORM_EPSILON cfg)) ;;
  (* with slim.arg_scope(arg_scope): the calls of the block carry the
     scope they are made in. *)
  net_fn <- call (networks_map (MODEL_NAME cfg)) ;;
  inputs <- lift (dict_get batch_dict "inputs") ;;
  ' (logits, end_points) <- call (apply_network_fn net_fn arg_scope inputs
                                    (NUM_CLASSES cfg)
                                    (DROPOUT_KEEP_PROB cfg)
                                    true) ;;
  (* Add the losses *)
  (if dict_in "AuxLogits" end_points then
     aux_logits <- lift (dict_get end_points "AuxLogits") ;;
     call (softmax_cross_entropy arg_scope aux_logits batched_one_hot_labels
             (PFloat 0) (PFloat 0x1.999999999999ap-2) (Some "aux_loss")) ;;
     Ret tt
   else Ret tt) ;;
  call (softmax_cross_entropy arg_scope logits batched_one_hot_labels
          (PFloat 0) (PFloat 1) None) ;;
  total_loss <- call get_total_loss ;;
  (* Track the moving averages of all trainable variables. *)
  ema <- call (ExponentialMovingAverage (MOVING_AVERAGE_DECAY cfg)
                 global_step) ;;
  variables_to_average <- call get_model_variables ;;
  maintain_averages_op <- call (ema_apply ema variables_to_average) ;;
  call (add_to_collection UPDATE_OPS maintain_averages_op) ;;
  trainable_vars <- get_trainable_variables trainable_scopes ;;
  train_op <- call (create_train_op total_loss optimizer trainable_vars) ;;
  (* Summary operations *)
  loss_summary <- call (summary_scalar "total_loss" total_loss) ;;
  lr_summary <- call (summary_scalar "learning_rate" lr) ;;
  summary_op <- call (summary_merge
                        ([loss_summary; lr_summary] ++ input_summaries)) ;;
  gpu <- call (GPUOptions
                 (PER_PROCESS_GPU_MEMORY_FRACTION (SESSION_CONFIG cfg))) ;;
  sess_config <- call (ConfigProto
                         (LOG_DEVICE_PLACEMENT (SESSION_CONFIG cfg))
                         true
                         gpu) ;;
  sv <- call (Saver (MAX_TO_KEEP cfg) (KEEP_CHECKPOINT_EVERY_N_HOURS cfg)) ;;
  (* Run training. *)
  init <- get_init_function logdir pretrained_model_path
            checkpoint_exclude_scopes ;;
  call (learning_train train_op logdir
          init
          (NUM_TRAIN_ITERATIONS cfg)
          (SAVE_SUMMARY_SECS cfg)
          (SAVE_INTERVAL_SECS cfg)
          sv
          sess_config
          summary_op
          (LOG_EVERY_N_STEPS cfg)).

(** The block of [main] under the comment
    "Replace cfg parameters with the command line values". *)
Definition replace_cfg_parameters (args : arguments) (cfg : config)
  : config :=
  let cfg :=
    match max_number_of_steps args with
    | Some v => set_NUM_TRAIN_ITERATIONS (PInt v) cfg
    | None => cfg
    end in
  let cfg :=
    match learning_rate_decay_type args with
    | Some v => set_LEARNING_RATE_DECAY_TYPE v cfg
    | None => cfg
    end in
  let cfg :=
    match learning_rate args with
    | Some v => set_INITIAL_LEARNING_RATE (PFloat v) cfg
    | None => cfg
    end in
  let cfg :=
    match batch_size args with
    | Some v => set_BATCH_SIZE (PInt v) cfg
    | None => cfg
    end in
  let cfg :=
    match model_name args with
    | Some v => set_MODEL_NAME v cfg
    | None => cfg
    end in
  cfg.

Definition main : prog unit :=
  args <- call parse_args ;;
  cfg <- call (parse_config_file (config_file args)) ;;
  let cfg := replace_cfg_parameters args cfg in
  train (tfrecords args)
        (logdir args)
        cfg
        (pretrained_model args)
        (trainable_scopes args)
        (checkpoint_exclude_scopes args).

(** ** A sample configuration and a reference framework *)

Module Sample.

Definition cfg (decay_type opt : string) (batch : pynum) : config :=
  {| NUM_TRAIN_EXAMPLES := PInt 1000;
     BATCH_SIZE := batch;
     NUM_EPOCHS_PER_DELAY := PFloat 2.5;
     LEARNING_RATE_DECAY_TYPE := decay_type;
     INITIAL_LEARNING_RATE := PFloat 0.5;
     LEARNING_RATE_DECAY_FACTOR := PFloat 0.75;
     LEARNING_RATE_STAIRCASE := true;
     END_LEARNING_RATE := PFloat 0.125;
     OPTIMIZER := opt;
     ADADELTA_RHO := PFloat 0.5;
     OPTIMIZER_EPSILON := PFloat 1;
     ADAGRAD_INITIAL_ACCUMULATOR_VALUE := PFloat 0.25;
     ADAM_BETA1 := PFloat 0.5;
     ADAM_BETA2 := PFloat 0.75;
     FTRL_LEARNING_RATE_POWER := PFloat (-0.5);
     FTRL_INITIAL_ACCUMULATOR_VALUE := PFloat 0.25;
     FTRL_L1 := PFloat 0;
     FTRL_L2 := PFloat 0;
     MOMENTUM := PFloat 0.5;
     RMSPROP_DECAY := PFloat 0.5;
     IMAGE_PROCESSING := [("INPUT_SIZE", VNum (PInt 299))];
     NUM_INPUT_THREADS := PInt 4;
     SHUFFLE_QUEUE := true;
     RANDOM_SEED := PFloat 1;
     QUEUE_CAPACITY := PInt 2000;
     QUEUE_MIN := PInt 200;
     NUM_CLASSES := PInt 200;
     MODEL_NAME := "inception_v3";
     WEIGHT_DECAY := PFloat 0.00390625;
     BATCHNORM_MOVING_AVERAGE_DECAY := PFloat 0.75;
     BATCHNORM_EPSILON := PFloat 0.0009765625;
     DROPOUT_KEEP_PROB := PFloat 0.5;
     MOVING_AVERAGE_DECAY := PFloat 0.75;
     SESSION_CONFIG :=
       {| LOG_DEVICE_PLACEMENT := false;
          PER_PROCESS_GPU_MEMORY_FRACTION := PFloat 0.75 |};
     MAX_TO_KEEP := PInt 3;
     KEEP_CHECKPOINT_EVERY_N_HOURS := PInt 1;
     NUM_TRAIN_ITERATIONS := PInt 1000000;
     SAVE_SUMMARY_SECS := PInt 30;
     SAVE_INTERVAL_SECS := PInt 1800;
     LOG_EVERY_N_STEPS := PInt 10 |}.

(** What the reference framework knows: the graph's collections, the
    file system, the command line and the configuration file. *)
Record world : Type := {
  w_trainable : list variable;
  w_model : list variable;
  w_summaries : list tensor;
  w_matches : string -> string -> bool;
  w_latest : string -> option string;
  w_isdir : string -> bool;
  w_batch : list (string * tensor);
  w_end_points : list (string * tensor);
  w_args : arguments;
  w_config : config
}.

(** The reference framework: queries are answered from the world, and
    each constructor returns a fresh object. *)
Definition framework (w : world) : handler N :=
  fun X c n =>
    match c in tfE X return result X * N with
    | logging_set_verbosity _ => (Ok tt, n)
    | logging_info _ => (Ok tt, n)
    | Graph => (Ok (Handle n), N.succ n)
    | as_default _ => (Ok tt, n)
    | get_or_create_global_step => (Ok (Handle n), N.succ n)
    | exponential_decay _ _ _ _ _ _ => (Ok (Handle n), N.succ n)
    | constant _ _ => (Ok (Handle n), N.succ n)
    | polynomial_decay _ _ _ _ _ _ _ => (Ok (Handle n), N.succ n)
    | AdadeltaOptimizer _ _ _ => (Ok (Handle n), N.succ n)
    | AdagradOptimizer _ _ => (Ok (Handle n), N.succ n)
    | AdamOptimizer _ _ _ _ => (Ok (Handle n), N.succ n)
    | FtrlOptimizer _ _ _ _ _ => (Ok (Handle n), N.succ n)
    | MomentumOptimizer _ _ _ => (Ok (Handle n), N.succ n)
    | RMSPropOptimizer _ _ _ _ => (Ok (Handle n), N.succ n)
    | GradientDescentOptimizer _ => (Ok (Handle n), N.succ n)
    | trainable_variables => (Ok (w_trainable w), n)
    | get_collection key scope =>
        (match key in graph_key T return result (list T) with
         | TRAINABLE_VARIABLES =>
             Ok (match scope with
                 | None => w_trainable w
                 | Some sc =>
                     filter (fun v => w_matches w sc (var_name v))
                            (w_trainable w)
                 end)
         | SUMMARIES => Ok (w_summaries w)
         | UPDATE_OPS => Ok []
         end, n)
    | add_to_collection _ _ => (Ok tt, n)
    | get_model_variables => (Ok (w_model w), n)
    | latest_checkpoint d => (Ok (w_latest w d), n)
    | isdir p => (Ok (w_isdir w p), n)
    | assign_from_checkpoint_fn _ _ _ => (Ok (Handle n), N.succ n)
    | input_nodes _ _ _ _ _ _ _ _ _ _ _ => (Ok (w_batch w), n)
    | one_hot_encoding _ _ => (Ok (Handle n), N.succ n)
    | arg_scopes_map _ => (Ok (Handle n), N.succ n)
    | apply_arg_scope_fn _ _ _ _ => (Ok (Handle n), N.succ n)
    | networks_map _ => (Ok (Handle n), N.succ n)
    | apply_network_fn _ _ _ _ _ _ =>
        (Ok (Handle n, w_end_points w), N.succ n)
    | softmax_cross_entropy _ _ _ _ _ _ => (Ok (Handle n), N.succ n)
    | get_total_loss => (Ok (Handle n), N.succ n)
    | ExponentialMovingAverage _ _ => (Ok (Handle n), N.succ n)
    | ema_apply _ _ => (Ok (Handle n), N.succ n)
    | create_train_op _ _ _ => (Ok (Handle n), N.succ n)
    | summary_scalar _ _ => (Ok (Handle n), N.succ n)
    | summary_merge _ => (Ok (Handle n), N.succ n)
    | GPUOptions _ => (Ok (Handle n), N.succ n)
    | ConfigProto _ _ _ => (Ok (Handle n), N.succ n)
    | Saver _ _ => (Ok (Handle n), N.succ n)
    | learning_train _ _ _ _ _ _ _ _ _ _ => (Ok tt, n)
    | parse_args => (Ok (w_args w), n)
    | parse_config_file _ => (Ok (w_config w), n)
    end.

Definition var (name : string) : variable :=
  {| var_name := name ++ ":0"; var_op_name := name |}.

Definition args : arguments :=
  {| tfrecords := ["train-00000.tfrecords"];
     logdir := "/tmp/logdir";
     config_file := "config_train.yaml";
     pretrained_model := Some "/models/inception_v3";
     trainable_scopes := Some [" InceptionV3/Logits"; "InceptionV3/AuxLogits "];
     checkpoint_exclude_scopes := Some ["InceptionV3/Logits "; " InceptionV3/AuxLogits"];
     max_number_of_steps := Some 5000;
     learning_rate_decay_type := None;
     learning_rate := Some 0.25%float;
     batch_size := Some 32;
     model_name := None |}.

Definition world_with (latest : string -> option string) : world :=
  {| w_trainable := [var "InceptionV3/Conv2d_1a_3x3/weights";
                     var "InceptionV3/Logits/weights";
                     var "InceptionV3/AuxLogits/weights"];
     w_model := [var "InceptionV3/Conv2d_1a_3x3/weights";
                 var "InceptionV3/Conv2d_1a_3x3/BatchNorm/moving_mean";
                 var "InceptionV3/Logits/weights";
                 var "InceptionV3/AuxLogits/weights"];
     w_summaries := [Handle 1000%N];
     w_matches := String.prefix;
     w_latest := latest;
     w_isdir := fun p => (p =? "/models/inception_v3")%string
                         || (p =? "/models/empty")%string;
     w_batch := [("inputs", Handle 2000%N); ("labels", Handle 2001%N)];
     w_end_points := [("AuxLogits", Handle 3000%N)];
     w_args := args;
     w_config := cfg "exponential" "rmsprop" (PInt 64) |}.

(** A first run: the log directory is empty. *)
Definition the_world : world :=
  world_with (fun d =>
                if (d =? "/models/inception_v3")%string
                then Some "/models/inception_v3/model.ckpt-1000" else None).

(** A resumed run: the log directory already holds a checkpoint. *)
Definition resumed_world : world :=
  world_with (fun d =>
                if (d =? "/tmp/logdir")%string
                then Some "/tmp/logdir/model.ckpt-5" else None).

(** U+00A0 (no-break space) and U+3000 (ideographic space) in UTF-8, and
    a blank scope made of them and a space. *)
Definition nbsp : string :=
  String (ascii_of_nat 194) (String (ascii_of_nat 160) "").

Definition ideographic_space : string :=
  String (ascii_of_nat 227) (String (ascii_of_nat 128)
    (String (ascii_of_nat 128) "")).

Definition blank : string := nbsp ++ ideographic_space ++ " ".

End Sample.

(** ** Vocabulary of the statements *)

(** The values the two selection functions recognize. *)
Definition decay_types : list string :=
  ["exponential"; "fixed"; "polynomial"].

Definition optimizers : list string :=
  ["adadelta"; "adagrad"; "adam"; "ftrl"; "momentum"; "rmsprop"; "sgd"].

(** The errors of lines 70-71 and 119: [ValueError] is given the message
    and the offending value as two arguments. *)
Definition decay_type_error (cfg : config) : exn :=
  ValueError [VStr "learning_rate_decay_type [%s] was not recognized";
              VStr (LEARNING_RATE_DECAY_TYPE cfg)].

Definition optimizer_error (cfg : config) : exn :=
  ValueError [VStr "Optimizer [%s] was not recognized";
              VStr (OPTIMIZER cfg)].


(** The scopes given on the command line: none when the option is absent. *)
Definition given (scopes : option (list string)) : list string :=
  match scopes with
  | Some l => l
  | None => []
  end.

(** What the script relies on from the graph: when
    [tf.trainable_variables()] answers, it answers the collection of
    trainable variables, and when [tf.get_collection(key, scope)] answers,
    it answers the items of the collection whose name the framework
    matches against [scope], and the collection is as before.  Either call
    may also raise (the framework compiles [scope] as a pattern). *)
Definition answers_collections {S : Type} (h : handler S)
  (trainable : S -> list variable) (matches : string -> string -> bool)
  : Prop :=
  (forall s vars s',
     h _ trainable_variables s = (Ok vars, s') -> vars = trainable s) /\
  (forall s scope vars s',
     h _ (get_collection TRAINABLE_VARIABLES (Some scope)) s = (Ok vars, s') ->
     vars = filter (fun v => matches scope (var_name v)) (trainable s) /\
     trainable s' = trainable s).

(** The variables [get_init_function] hands to
    [slim.assign_from_checkpoint_fn]. *)
Definition variables_to_restore (checkpoint_exclude_scopes : option (list string))
  (model_variables : list variable) : list variable :=
  filter (fun v =>
            negb (excluded (map strip (given checkpoint_exclude_scopes))
                    (var_op_name v)))
         model_variables.

Module Stage.

Inductive t : Type :=
| learning_rate | optimizer | input_pipeline | network | loss
| moving_average | train_op | summaries | session | checkpointing
| training_loop.

Definition eqb (a b : t) : bool :=
  match a, b with
  | learning_rate, learning_rate | optimizer, optimizer
  | input_pipeline, input_pipeline | network, network | loss, loss
  | moving_average, moving_average | train_op, train_op
  | summaries, summaries | session, session
  | checkpointing, checkpointing | training_loop, training_loop => true
  | _, _ => false
  end.

End Stage.

(** The stage of graph construction a call belongs to; bookkeeping calls
    (logging, graph creation, collection queries) belong to none. *)
Definition stage_of {X : Type} (c : tfE X) : option Stage.t :=
  match c with
  | exponential_decay _ _ _ _ _ _ | constant _ _
  | polynomial_decay _ _ _ _ _ _ _ => Some Stage.learning_rate
  | AdadeltaOptimizer _ _ _ | AdagradOptimizer _ _ | AdamOptimizer _ _ _ _
  | FtrlOptimizer _ _ _ _ _ | MomentumOptimizer _ _ _
  | RMSPropOptimizer _ _ _ _ | GradientDescentOptimizer _ =>
      Some Stage.optimizer
  | input_nodes _ _ _ _ _ _ _ _ _ _ _ | one_hot_encoding _ _ =>
      Some Stage.input_pipeline
  | arg_scopes_map _ | apply_arg_scope_fn _ _ _ _ | networks_map _
  | apply_network_fn _ _ _ _ _ _ => Some Stage.network
  | softmax_cross_entropy _ _ _ _ _ _ | get_total_loss => Some Stage.loss
  | ExponentialMovingAverage _ _ | ema_apply _ _ => Some Stage.moving_average
  | create_train_op _ _ _ => Some Stage.train_op
  | summary_scalar _ _ | summary_merge _ => Some Stage.summaries
  | GPUOptions _ | ConfigProto _ _ _ => Some Stage.session
  | Saver _ _ | latest_checkpoint _ | isdir _
  | assign_from_checkpoint_fn _ _ _ => Some Stage.checkpointing
  | learning_train _ _ _ _ _ _ _ _ _ _ => Some Stage.training_loop
  | _ => None
  end.

(** The stages seen so far, most recent first; a stage is recorded when it
    is entered. *)
Definition enter (st : option Stage.t) (seen : list Stage.t) : list Stage.t :=
  match st, seen with
  | None, _ => seen
  | Some a, [] => [a]
  | Some a, b :: _ => if Stage.eqb a b then seen else a :: seen
  end.

Arguments enter : simpl never.

Definition record (seen : list Stage.t) (ev : event) : list Stage.t :=
  match ev with
  | Called c _ => enter (stage_of c) seen
  end.

(** The sequence of stages of a run, in the order they were entered. *)
Definition stage_sequence (tr : list event) : list Stage.t :=
  rev (fold_left record tr []).

(** [on_return p seen P]: on every path of [p] that returns [r], having
    entered [seen] before [p], [P] holds of the stages entered and of [r]. *)
Fixpoint on_return {R : Type} (p : prog R) (seen : list Stage.t)
  (P : list Stage.t -> R -> Prop) : Prop :=
  match p with
  | Ret r => P seen r
  | Raise _ => True
  | Vis c k => forall x, on_return (k x) (enter (stage_of c) seen) P
  end.

(** The sequence the code follows. *)
Definition build_order : list Stage.t :=
  [Stage.learning_rate; Stage.optimizer; Stage.input_pipeline; Stage.network;
   Stage.loss; Stage.moving_average; Stage.train_op; Stage.summaries;
   Stage.session; Stage.checkpointing; Stage.training_loop].

(** The sequence of the overview: input pipeline, network, loss, optimizer,
    moving-average tracking, checkpointing, training loop. *)
Definition overview_order : list Stage.t :=
  [Stage.input_pipeline; Stage.network; Stage.loss; Stage.optimizer;
   Stage.moving_average; Stage.checkpointing; Stage.training_loop].

(** The stages of [l] that the overview names. *)
Definition overview_stages (l : list Stage.t) : list Stage.t :=
  filter (fun a => existsb (Stage.eqb a) overview_order) l.

(** The other reading of "optimizer": the step that applies the optimizer
    to the loss ([create_train_op]) instead of the construction of the
    optimizer object. *)
Definition optimizer_as_train_op (l : list Stage.t) : list Stage.t :=
  flat_map (fun a =>
              match a with
              | Stage.optimizer => []
              | Stage.train_op => [Stage.optimizer]
              | _ => [a]
              end) l.

(** What follows the whitespace character a string starts with, if it
    starts with one. *)
Definition leading_space (s : string) : option string :=
  match s with
  | EmptyString => None
  | String a s1 =>
      if space1 a then Some s1
      else
        match s1 with
        | EmptyString => None
        | String b s2 =>
            if space2 a b then Some s2
            else
              match s2 with
              | EmptyString => None
              | String c s3 => if space3 a b c then Some s3 else None
              end
        end
  end.

(** ** Statements about every run

    [holds p tr Q]: whatever the framework answers or raises, a run of [p]
    that starts after the calls [tr] ends with a trace and a value that
    satisfy [Q]. *)
Fixpoint holds {R : Type} (p : prog R) (tr : list event)
  (Q : list event -> result R -> Prop) : Prop :=
  match p with
  | Ret r => Q tr (Ok r)
  | Raise e => Q tr (Err e)
  | Vis c k =>
      (forall e, Q tr (Err e)) /\
      (forall x, holds (k x) (tr ++ [Called c x]) Q)
  end.

(** [calls_satisfy P p]: every call [p] can make, with any answer,
    satisfies [P]. *)
Fixpoint calls_satisfy {R : Type} (P : event -> Prop) (p : prog R) : Prop :=
  match p with
  | Vis c k => forall x, P (Called c x) /\ calls_satisfy P (k x)
  | _ => True
  end.

(** [never_returns p]: no path of [p] returns. *)
Fixpoint never_returns {R : Type} (p : prog R) : Prop :=
  match p with
  | Ret _ => False
  | Raise _ => True
  | Vis c k => forall x, never_returns (k x)
  end.

(** What a trace shows of a run: the command line and the configuration
    read, the batch dictionary and the end points received, the losses
    requested (logits, weight, scope), the train op built (optimizer,
    variables) and the training loop started (init function, number of
    steps). *)
Definition args_of (ev : event) : list arguments :=
  match ev with
  | Called c x =>
      match c in tfE X return X -> list arguments with
      | parse_args => fun a => [a]
      | _ => fun _ => []
      end x
  end.

Definition configs_of (ev : event) : list config :=
  match ev with
  | Called c x =>
      match c in tfE X return X -> list config with
      | parse_config_file _ => fun a => [a]
      | _ => fun _ => []
      end x
  end.

Definition batches_of (ev : event) : list (list (string * tensor)) :=
  match ev with
  | Called c x =>
      match c in tfE X return X -> list (list (string * tensor)) with
      | input_nodes _ _ _ _ _ _ _ _ _ _ _ => fun a => [a]
      | _ => fun _ => []
      end x
  end.

Definition networks_of (ev : event)
  : list (tensor * list (string * tensor)) :=
  match ev with
  | Called c x =>
      match c in tfE X return X -> list (tensor * list (string * tensor)) with
      | apply_network_fn _ _ _ _ _ _ => fun a => [a]
      | _ => fun _ => []
      end x
  end.

Definition losses_of (ev : event) : list (tensor * pynum * option string) :=
  match ev with
  | Called c _ =>
      match c with
      | softmax_cross_entropy _ logits _ _ weights loss_scope =>
          [(logits, weights, loss_scope)]
      | _ => []
      end
  end.

Definition train_ops_of (ev : event)
  : list (optimizer * list variable) :=
  match ev with
  | Called c _ =>
      match c with
      | create_train_op _ opt variables_to_train =>
          [(opt, variables_to_train)]
      | _ => []
      end
  end.

Definition training_loops_of (ev : event) : list (option init_fn * pynum) :=
  match ev with
  | Called c _ =>
      match c with
      | learning_train _ _ init number_of_steps _ _ _ _ _ _ =>
          [(init, number_of_steps)]
      | _ => []
      end
  end.

(** The calls of the four helper functions of [train]. *)
Definition helper_call (ev : event) : Prop :=
  match ev with
  | Called c _ =>
      match c with
      | exponential_decay _ _ _ _ _ _ | constant _ _
      | polynomial_decay _ _ _ _ _ _ _
      | AdadeltaOptimizer _ _ _ | AdagradOptimizer _ _
      | AdamOptimizer _ _ _ _ | FtrlOptimizer _ _ _ _ _
      | MomentumOptimizer _ _ _ | RMSPropOptimizer _ _ _ _
      | GradientDescentOptimizer _
      | trainable_variables | get_collection _ _
      | latest_checkpoint _ | logging_info _ | get_model_variables
      | isdir _ | assign_from_checkpoint_fn _ _ _ => True
      | _ => False
      end
  end.

(** Variations of the sample world: another command line, another batch
    dictionary, other end points. *)
Definition world_of (a : arguments) (batch end_points : list (string * tensor))
  : Sample.world :=
  {| Sample.w_trainable := Sample.w_trainable Sample.the_world;
     Sample.w_model := Sample.w_model Sample.the_world;
     Sample.w_summaries := Sample.w_summaries Sample.the_world;
     Sample.w_matches := Sample.w_matches Sample.the_world;
     Sample.w_latest := Sample.w_latest Sample.the_world;
     Sample.w_isdir := Sample.w_isdir Sample.the_world;
     Sample.w_batch := batch;
     Sample.w_end_points := end_points;
     Sample.w_args := a;
     Sample.w_config := Sample.w_config Sample.the_world |}.

Definition args_with_batch_size (n : Z) : arguments :=
  {| tfrecords := ["train-00000.tfrecords"];
     logdir := "/tmp/logdir";
     config_file := "config_train.yaml";
     pretrained_model := None;
     trainable_scopes := None;
     checkpoint_exclude_scopes := None;
     max_number_of_steps := None;
     learning_rate_decay_type := None;
     learning_rate := None;
     batch_size := Some n;
     model_name := None |}.

(** The auxiliary loss [train] requests for end points that hold
    ['AuxLogits']: weight 0.4, scope ['aux_loss']. *)
Definition aux_losses (end_points : list (string * tensor))
  : list (tensor * pynum * option string) :=
  match dict_get end_points "AuxLogits" with
  | Ok aux_logits =>
      [(aux_logits, PFloat 0x1.999999999999ap-2, Some "aux_loss")]
  | Err _ => []
  end.

(** * Properties *)

(** ** Arithmetic: where [ZeroDivisionError] comes from *)

Section Arithmetic.

Import PyArith.

Lemma float_of_int_error (z : Z) (e : exn) :
  float_of_int z = Err e -> e = OverflowError.
Proof.
  unfold float_of_int.
  destruct (binary_normalize prec emax z 0 false); congruence.
Qed.

Lemma to_float_error (n : pynum) (e : exn) :
  to_float n = Err e -> e = OverflowError.
Proof.
  destruct n as [z | f]; simpl.
  - apply float_of_int_error.
  - discriminate.
Qed.

Lemma int_true_divide_zero (x : Z) :
  int_true_divide x 0 = Err ZeroDivisionError.
Proof. reflexivity. Qed.

Lemma int_true_divide_error (x y : Z) (e : exn) :
  y <> 0 -> int_true_divide x y = Err e -> e = OverflowError.
Proof.
  intros Hy. unfold int_true_divide.
  destruct (Z.eqb_spec y 0) as [-> | _]; [contradiction |].
  destruct (x =? 0); [discriminate |].
  cbv zeta.
  match goal with
  | |- context [binary_normalize ?p ?m ?a ?b ?c] =>
      destruct (binary_normalize p m a b c)
  end; congruence.
Qed.

(** A zero divisor never yields a quotient. *)
Lemma truediv_zero (a b : pynum) :
  is_zero b = true -> exists e, truediv a b = Err e.
Proof.
  intros Hb. unfold truediv.
  destruct a as [x | fa], b as [y | fb]; simpl in *.
  - apply Z.eqb_eq in Hb. subst y. eexists. apply int_true_divide_zero.
  - destruct (float_of_int x); simpl; [rewrite Hb |]; eauto.
  - destruct (float_of_int y); simpl; [rewrite Hb |]; eauto.
  - rewrite Hb. eauto.
Qed.

(** A divisor that is not zero never yields [ZeroDivisionError]. *)
Lemma truediv_nonzero (a b : pynum) :
  is_zero b = false -> truediv a b <> Err ZeroDivisionError.
Proof.
  intros Hb H. unfold truediv in H.
  destruct a as [x | fa], b as [y | fb]; simpl in *.
  - apply Z.eqb_neq in Hb.
    apply int_true_divide_error in H; [discriminate | assumption].
  - destruct (float_of_int x) eqn:E; simpl in H.
    + rewrite Hb in H. discriminate.
    + apply float_of_int_error in E. congruence.
  - destruct (float_of_int y) eqn:E; simpl in H.
    + rewrite Hb in H. discriminate.
    + apply float_of_int_error in E. congruence.
  - rewrite Hb in H. discriminate.
Qed.

Lemma float_mul_error (x : float) (c : pynum) (e : exn) :
  float_mul x c = Err e -> e = OverflowError.
Proof.
  unfold float_mul. destruct (to_float c) eqn:E; simpl; [discriminate |].
  intros H. apply to_float_error in E. congruence.
Qed.

Lemma int_of_float_error (x : float) :
  int_of_float x <> Err ZeroDivisionError.
Proof.
  unfold int_of_float. destruct (Prim2SF x); discriminate.
Qed.

End Arithmetic.

Lemma decay_steps_zero_batch (cfg : config) :
  PyArith.is_zero (BATCH_SIZE cfg) = true -> exists e, decay_steps cfg = Err e.
Proof.
  intros Hb. unfold decay_steps.
  destruct (truediv_zero (NUM_TRAIN_EXAMPLES cfg) _ Hb) as [e He].
  rewrite He. simpl. eauto.
Qed.

Lemma decay_steps_nonzero_batch (cfg : config) :
  PyArith.is_zero (BATCH_SIZE cfg) = false ->
  decay_steps cfg <> Err ZeroDivisionError.
Proof.
  intros Hb H. unfold decay_steps in H.
  destruct (PyArith.truediv (NUM_TRAIN_EXAMPLES cfg) (BATCH_SIZE cfg)) as [q | e] eqn:Eq;
    simpl in H.
  - destruct (PyArith.float_mul q (NUM_EPOCHS_PER_DELAY cfg)) as [x | e] eqn:Ex;
      simpl in H.
    + exact (int_of_float_error x H).
    + apply float_mul_error in Ex. congruence.
  - apply (truediv_nonzero (NUM_TRAIN_EXAMPLES cfg) _ Hb). congruence.
Qed.

(** ** Programs: running a sequence *)

Lemma run_bind {S A B : Type} (h : handler S) (p : prog A) (f : A -> prog B)
  (s : S) :
  run h (bind p f) s =
  match value (run h p s) with
  | Ok a =>
      let o := run h (f a) (final (run h p s)) in
      {| trace := trace (run h p s) ++ trace o; value := value o;
         final := final o |}
  | Err e =>
      {| trace := trace (run h p s); value := Err e;
         final := final (run h p s) |}
  end.
Proof.
  revert s. induction p as [r | e | X c k IH]; intros s; simpl.
  - destruct (run h (f r) s); reflexivity.
  - reflexivity.
  - destruct (h X c s) as [[x | e] s']; simpl.
    + rewrite IH. destruct (value (run h (k x) s')); reflexivity.
    + reflexivity.
Qed.

(** A returned value comes from a path that does not raise. *)
Lemma run_raise {S R : Type} (h : handler S) (e : exn) (s : S) (r : R) :
  value (run h (Raise e : prog R) s) <> Ok r.
Proof. simpl. discriminate. Qed.

(** ** Learning-rate schedule and optimizer selection *)

Lemma eqb_false_of_not_in (x : string) (l : list string) (y : string) :
  ~ In x l -> In y l -> (x =? y)%string = false.
Proof.
  intros Hx Hy. apply String.eqb_neq. intros ->. exact (Hx Hy).
Qed.

Ltac string_cases s :=
  repeat match goal with
  | |- context [(s =? ?l)%string] =>
      destruct (String.eqb_spec s l)
  | H : context [(s =? ?l)%string] |- _ =>
      destruct (String.eqb_spec s l)
  end.

(** C1, as amended: whenever [decay_steps =
    int(NUM_TRAIN_EXAMPLES / BATCH_SIZE * NUM_EPOCHS_PER_DELAY)] evaluates
    to an integer [d], [_configure_learning_rate] is exactly one call of the
    schedule constructor of the decay type: ['exponential'] calls
    [tf.train.exponential_decay], ['fixed'] calls [tf.constant] on
    [INITIAL_LEARNING_RATE], ['polynomial'] calls
    [tf.train.polynomial_decay]; both decaying schedules receive [d]. *)
Theorem configure_learning_rate_schedule
  (global_step : tensor) (cfg : config) (d : Z) :
  decay_steps cfg = Ok d ->
  (LEARNING_RATE_DECAY_TYPE cfg = "exponential" ->
   _configure_learning_rate global_step cfg =
   call (exponential_decay (INITIAL_LEARNING_RATE cfg) global_step d
           (LEARNING_RATE_DECAY_FACTOR cfg) (LEARNING_RATE_STAIRCASE cfg)
           "exponential_decay_learning_rate")) /\
  (LEARNING_RATE_DECAY_TYPE cfg = "fixed" ->
   _configure_learning_rate global_step cfg =
   call (constant (INITIAL_LEARNING_RATE cfg) "fixed_learning_rate")) /\
  (LEARNING_RATE_DECAY_TYPE cfg = "polynomial" ->
   _configure_learning_rate global_step cfg =
   call (polynomial_decay (INITIAL_LEARNING_RATE cfg) global_step d
           (END_LEARNING_RATE cfg) (PFloat 1) false
           "polynomial_decay_learning_rate")).
Proof.
  intros Hd. unfold _configure_learning_rate. rewrite Hd. simpl.
  repeat split; intros ->; reflexivity.
Qed.

Lemma configure_learning_rate_schedule_witness :
  _configure_learning_rate (Handle 7) (Sample.cfg "exponential" "sgd" (PInt 32)) =
  call (exponential_decay (PFloat 0.5) (Handle 7) 78 (PFloat 0.75) true
          "exponential_decay_learning_rate") /\
  _configure_learning_rate (Handle 7) (Sample.cfg "fixed" "sgd" (PInt 32)) =
  call (constant (PFloat 0.5) "fixed_learning_rate") /\
  _configure_learning_rate (Handle 7) (Sample.cfg "polynomial" "sgd" (PInt 32)) =
  call (polynomial_decay (PFloat 0.5) (Handle 7) 78 (PFloat 0.125) (PFloat 1)
          false "polynomial_decay_learning_rate").
Proof.
  split; [| split].
  - apply (configure_learning_rate_schedule (Handle 7)
             (Sample.cfg "exponential" "sgd" (PInt 32)) 78);
      vm_compute; reflexivity.
  - apply (configure_learning_rate_schedule (Handle 7)
             (Sample.cfg "fixed" "sgd" (PInt 32)) 78);
      vm_compute; reflexivity.
  - apply (configure_learning_rate_schedule (Handle 7)
             (Sample.cfg "polynomial" "sgd" (PInt 32)) 78);
      vm_compute; reflexivity.
Defined.

(** C1 as stated fails: with [BATCH_SIZE = 0] the decay type ['fixed'] is
    not mapped to a constant tensor; line 48 raises first. *)
Lemma configure_learning_rate_fixed_zero_batch :
  LEARNING_RATE_DECAY_TYPE (Sample.cfg "fixed" "sgd" (PInt 0)) = "fixed" /\
  _configure_learning_rate (Handle 7) (Sample.cfg "fixed" "sgd" (PInt 0)) =
  Raise ZeroDivisionError /\
  _configure_learning_rate (Handle 7) (Sample.cfg "fixed" "sgd" (PInt 0)) <>
  call (constant (INITIAL_LEARNING_RATE (Sample.cfg "fixed" "sgd" (PInt 0)))
          "fixed_learning_rate").
Proof.
  split; [reflexivity |].
  assert (E : _configure_learning_rate (Handle 7)
                (Sample.cfg "fixed" "sgd" (PInt 0)) = Raise ZeroDivisionError)
    by reflexivity.
  split; [exact E |]. rewrite E. discriminate.
Qed.

(** C2: each of the seven optimizer names makes [_configure_optimizer] one
    call of the optimizer constructor of that name, on the learning rate
    and on the hyperparameters the configuration holds for it, and the
    constructed optimizer is what is returned. *)
Theorem configure_optimizer_constructor
  (learning_rate : tensor) (cfg : config) :
  (OPTIMIZER cfg = "adadelta" ->
   _configure_optimizer learning_rate cfg =
   call (AdadeltaOptimizer learning_rate (ADADELTA_RHO cfg)
           (OPTIMIZER_EPSILON cfg))) /\
  (OPTIMIZER cfg = "adagrad" ->
   _configure_optimizer learning_rate cfg =
   call (AdagradOptimizer learning_rate
           (ADAGRAD_INITIAL_ACCUMULATOR_VALUE cfg))) /\
  (OPTIMIZER cfg = "adam" ->
   _configure_optimizer learning_rate cfg =
   call (AdamOptimizer learning_rate (ADAM_BETA1 cfg) (ADAM_BETA2 cfg)
           (OPTIMIZER_EPSILON cfg))) /\
  (OPTIMIZER cfg = "ftrl" ->
   _configure_optimizer learning_rate cfg =
   call (FtrlOptimizer learning_rate (FTRL_LEARNING_RATE_POWER cfg)
           (FTRL_INITIAL_ACCUMULATOR_VALUE cfg) (FTRL_L1 cfg)
           (FTRL_L2 cfg))) /\
  (OPTIMIZER cfg = "momentum" ->
   _configure_optimizer learning_rate cfg =
   call (MomentumOptimizer learning_rate (MOMENTUM cfg) "Momentum")) /\
  (OPTIMIZER cfg = "rmsprop" ->
   _configure_optimizer learning_rate cfg =
   call (RMSPropOptimizer learning_rate (RMSPROP_DECAY cfg) (MOMENTUM cfg)
           (OPTIMIZER_EPSILON cfg))) /\
  (OPTIMIZER cfg = "sgd" ->
   _configure_optimizer learning_rate cfg =
   call (GradientDescentOptimizer learning_rate)).
Proof.
  unfold _configure_optimizer.
  repeat split; intros ->; reflexivity.
Qed.

Lemma configure_optimizer_constructor_witness :
  _configure_optimizer (Handle 3) (Sample.cfg "fixed" "adadelta" (PInt 32)) =
  call (AdadeltaOptimizer (Handle 3) (PFloat 0.5) (PFloat 1)) /\
  _configure_optimizer (Handle 3) (Sample.cfg "fixed" "adagrad" (PInt 32)) =
  call (AdagradOptimizer (Handle 3) (PFloat 0.25)) /\
  _configure_optimizer (Handle 3) (Sample.cfg "fixed" "adam" (PInt 32)) =
  call (AdamOptimizer (Handle 3) (PFloat 0.5) (PFloat 0.75) (PFloat 1)) /\
  _configure_optimizer (Handle 3) (Sample.cfg "fixed" "ftrl" (PInt 32)) =
  call (FtrlOptimizer (Handle 3) (PFloat (-0.5)) (PFloat 0.25) (PFloat 0)
          (PFloat 0)) /\
  _configure_optimizer (Handle 3) (Sample.cfg "fixed" "momentum" (PInt 32)) =
  call (MomentumOptimizer (Handle 3) (PFloat 0.5) "Momentum") /\
  _configure_optimizer (Handle 3) (Sample.cfg "fixed" "rmsprop" (PInt 32)) =
  call (RMSPropOptimizer (Handle 3) (PFloat 0.5) (PFloat 0.5) (PFloat 1)) /\
  _configure_optimizer (Handle 3) (Sample.cfg "fixed" "sgd" (PInt 32)) =
  call (GradientDescentOptimizer (Handle 3)).
Proof.
  refine (conj _ (conj _ (conj _ (conj _ (conj _ (conj _ _)))))).
  - apply (configure_optimizer_constructor (Handle 3)
             (Sample.cfg "fixed" "adadelta" (PInt 32))); reflexivity.
  - apply (configure_optimizer_constructor (Handle 3)
             (Sample.cfg "fixed" "adagrad" (PInt 32))); reflexivity.
  - apply (configure_optimizer_constructor (Handle 3)
             (Sample.cfg "fixed" "adam" (PInt 32))); reflexivity.
  - apply (configure_optimizer_constructor (Handle 3)
             (Sample.cfg "fixed" "ftrl" (PInt 32))); reflexivity.
  - apply (configure_optimizer_constructor (Handle 3)
             (Sample.cfg "fixed" "momentum" (PInt 32))); reflexivity.
  - apply (configure_optimizer_constructor (Handle 3)
             (Sample.cfg "fixed" "rmsprop" (PInt 32))); reflexivity.
  - apply (configure_optimizer_constructor (Handle 3)
             (Sample.cfg "fixed" "sgd" (PInt 32))); reflexivity.
Defined.

(** *** Unrecognized values *)

Lemma decay_steps_error (cfg : config) (e : exn) :
  decay_steps cfg = Err e ->
  e = ZeroDivisionError \/ e = OverflowError \/
  e = ValueError [VStr "cannot convert float NaN to integer"].
Proof.
  unfold decay_steps.
  destruct (PyArith.truediv (NUM_TRAIN_EXAMPLES cfg) (BATCH_SIZE cfg))
    as [q | e1] eqn:Eq; simpl.
  - destruct (PyArith.float_mul q (NUM_EPOCHS_PER_DELAY cfg))
      as [x | e2] eqn:Ex; simpl.
    + unfold PyArith.int_of_float. destruct (Prim2SF x); intros H;
        inversion H; auto.
    + intros H. inversion H. subst e2.
      apply float_mul_error in Ex. auto.
  - intros H. inversion H. subst e1. clear H.
    unfold PyArith.truediv in Eq.
    destruct (NUM_TRAIN_EXAMPLES cfg) as [x | fa], (BATCH_SIZE cfg) as [y | fb];
      simpl in Eq.
    + destruct (Z.eq_dec y 0) as [-> | Hy].
      * rewrite int_true_divide_zero in Eq. inversion Eq. auto.
      * apply int_true_divide_error in Eq; auto.
    + destruct (PyArith.float_of_int x) eqn:E; simpl in Eq.
      * destruct (PrimFloat.is_zero fb); inversion Eq; auto.
      * apply float_of_int_error in E. inversion Eq. subst. auto.
    + destruct (PyArith.float_of_int y) eqn:E; simpl in Eq.
      * destruct (y =? 0); inversion Eq; auto.
      * apply float_of_int_error in E. inversion Eq. subst. auto.
    + destruct (PrimFloat.is_zero fb); inversion Eq; auto.
Qed.

Lemma learning_rate_unrecognized (global_step : tensor) (cfg : config) (d : Z) :
  decay_steps cfg = Ok d ->
  ~ In (LEARNING_RATE_DECAY_TYPE cfg) decay_types ->
  _configure_learning_rate global_step cfg = Raise (decay_type_error cfg).
Proof.
  intros Hd Hn. unfold _configure_learning_rate. rewrite Hd. simpl.
  rewrite !(eqb_false_of_not_in _ decay_types) by (simpl; auto).
  reflexivity.
Qed.


Lemma optimizer_unrecognized (learning_rate : tensor) (cfg : config) :
  ~ In (OPTIMIZER cfg) optimizers ->
  _configure_optimizer learning_rate cfg = Raise (optimizer_error cfg).
Proof.
  intros Hn. unfold _configure_optimizer.
  rewrite !(eqb_false_of_not_in _ optimizers) by (simpl; auto 10).
  reflexivity.
Qed.


Lemma call_raises_nothing {X : Type} (c : tfE X) (e : exn) :
  ~ raises (call c) e.
Proof. simpl. intros [x []]. Qed.








(** C10: [decay_steps] is evaluated before the decay type is looked at, so
    with [BATCH_SIZE = 0] the function raises whatever the decay type is
    ('fixed' included) and a returned schedule implies [BATCH_SIZE <> 0];
    with [BATCH_SIZE <> 0] no path of the function raises
    [ZeroDivisionError]. *)
Theorem configure_learning_rate_batch_size
  (global_step : tensor) (cfg : config) :
  (PyArith.is_zero (BATCH_SIZE cfg) = true ->
   exists e, _configure_learning_rate global_step cfg = Raise e) /\
  (forall (S : Type) (h : handler S) (s : S) (t : tensor),
     value (run h (_configure_learning_rate global_step cfg) s) = Ok t ->
     PyArith.is_zero (BATCH_SIZE cfg) = false) /\
  (PyArith.is_zero (BATCH_SIZE cfg) = false ->
   ~ raises (_configure_learning_rate global_step cfg) ZeroDivisionError).
Proof.
  assert (Hz : PyArith.is_zero (BATCH_SIZE cfg) = true ->
               exists e, _configure_learning_rate global_step cfg = Raise e).
  { intros Hb. destruct (decay_steps_zero_batch cfg Hb) as [e He].
    exists e. unfold _configure_learning_rate. rewrite He. reflexivity. }
  split; [exact Hz | split].
  - intros S h s t Hrun.
    destruct (PyArith.is_zero (BATCH_SIZE cfg)) eqn:Hb; [| reflexivity].
    destruct (Hz eq_refl) as [e He]. rewrite He in Hrun.
    exfalso. exact (run_raise h e s t Hrun).
  - intros Hb Hr. unfold _configure_learning_rate in Hr.
    destruct (decay_steps cfg) as [d | e] eqn:Hd; simpl in Hr.
    + string_cases (LEARNING_RATE_DECAY_TYPE cfg);
        try (exact (call_raises_nothing _ _ Hr)).
      simpl in Hr. discriminate.
    + subst e. exact (decay_steps_nonzero_batch cfg Hb Hd).
Qed.

Lemma configure_learning_rate_batch_size_witness :
  (exists e, _configure_learning_rate (Handle 7)
               (Sample.cfg "fixed" "sgd" (PFloat 0)) = Raise e) /\
  ~ raises (_configure_learning_rate (Handle 7)
              (Sample.cfg "fixed" "sgd" (PInt 32))) ZeroDivisionError.
Proof.
  split.
  - apply (proj1 (configure_learning_rate_batch_size (Handle 7)
                    (Sample.cfg "fixed" "sgd" (PFloat 0)))).
    vm_compute. reflexivity.
  - apply (proj2 (proj2 (configure_learning_rate_batch_size (Handle 7)
                           (Sample.cfg "fixed" "sgd" (PInt 32))))).
    vm_compute. reflexivity.
Defined.

(** ** Variable selection *)

Section TrainableVariables.

Context {S : Type} (h : handler S).
Variable trainable : S -> list variable.
Variable matches : string -> string -> bool.
Hypothesis contract : answers_collections h trainable matches.

Lemma extend_with_scopes_run (scopes : list string) (acc : list variable)
  (s : S) (vars : list variable) :
  value (run h (extend_with_scopes scopes acc) s) = Ok vars ->
  vars = (acc ++ flat_map
                   (fun scope =>
                      filter (fun v => matches scope (var_name v))
                             (trainable s))
                   scopes)%list.
Proof.
  revert acc s. induction scopes as [| scope rest IH]; intros acc s; simpl.
  - rewrite app_nil_r. congruence.
  - destruct (h _ (get_collection TRAINABLE_VARIABLES (Some scope)) s)
      as [[answer | e] s'] eqn:Hh; simpl; [| discriminate].
    destruct (proj2 contract s scope answer s' Hh) as [-> Hs'].
    intros Hv. apply IH in Hv. rewrite Hs', <- app_assoc in Hv. exact Hv.
Qed.

Lemma extend_with_scopes_returns (scopes : list string)
  (acc : list variable) (s : S) :
  (forall scope s', In scope scopes ->
     exists vars s'',
       h _ (get_collection TRAINABLE_VARIABLES (Some scope)) s' =
       (Ok vars, s'')) ->
  exists vars, value (run h (extend_with_scopes scopes acc) s) = Ok vars.
Proof.
  revert acc s. induction scopes as [| scope rest IH]; intros acc s Hans;
    simpl.
  - eauto.
  - destruct (Hans scope s (or_introl eq_refl)) as (answer & s' & Hh).
    rewrite Hh. simpl. apply IH. intros sc s0 Hin. apply Hans. right.
    exact Hin.
Qed.

(** C4: with no scopes given, what [get_trainable_variables] returns is the
    whole list of trainable variables; with scopes, what it returns is a
    list whose members are exactly the trainable variables whose name
    matches a given scope, stripped of whitespace; and it returns whenever
    the graph answers the queries. *)
Theorem get_trainable_variables_exact (s : S) :
  (forall vars,
     value (run h (get_trainable_variables None) s) = Ok vars ->
     vars = trainable s) /\
  (forall scopes vars,
     value (run h (get_trainable_variables (Some scopes)) s) = Ok vars ->
     forall v,
       In v vars <->
       In v (trainable s) /\
       exists scope, In scope scopes /\
                     matches (strip scope) (var_name v) = true) /\
  ((exists vars s', h _ trainable_variables s = (Ok vars, s')) ->
   exists vars, value (run h (get_trainable_variables None) s) = Ok vars) /\
  (forall scopes,
     (forall scope s', In scope scopes ->
        exists vars s'',
          h _ (get_collection TRAINABLE_VARIABLES (Some (strip scope))) s' =
          (Ok vars, s'')) ->
     exists vars,
       value (run h (get_trainable_variables (Some scopes)) s) = Ok vars).
Proof.
  split; [| split; [| split]].
  - intros vars. simpl.
    destruct (h _ trainable_variables s) as [[answer | e] s'] eqn:Hh; simpl;
      [| discriminate].
    intros Hv. injection Hv as <-. exact (proj1 contract s answer s' Hh).
  - intros scopes vars Hv v. unfold get_trainable_variables in Hv.
    apply extend_with_scopes_run in Hv. subst vars. simpl.
    rewrite in_flat_map. split.
    + intros (sc & Hsc & Hin). apply in_map_iff in Hsc.
      destruct Hsc as (scope & <- & Hscope).
      apply filter_In in Hin. destruct Hin as [Hin Hm].
      split; [exact Hin | exists scope; auto].
    + intros (Hin & scope & Hscope & Hm).
      exists (strip scope). split.
      * apply in_map. exact Hscope.
      * apply filter_In. auto.
  - intros (answer & s' & Hh). simpl. rewrite Hh. simpl. eauto.
  - intros scopes Hans. unfold get_trainable_variables.
    apply extend_with_scopes_returns. intros sc s' Hin.
    apply in_map_iff in Hin. destruct Hin as (scope & <- & Hscope).
    apply Hans. exact Hscope.
Qed.

End TrainableVariables.

Lemma sample_framework_collections :
  answers_collections (Sample.framework Sample.the_world)
    (fun _ => Sample.w_trainable Sample.the_world) String.prefix.
Proof.
  split.
  - intros s vars s' H. simpl in H. injection H as <- _. reflexivity.
  - intros s scope vars s' H. simpl in H. injection H as <- _.
    split; reflexivity.
Qed.

Lemma get_trainable_variables_exact_witness :
  (forall v,
     In v [Sample.var "InceptionV3/Logits/weights";
           Sample.var "InceptionV3/AuxLogits/weights"] <->
     In v (Sample.w_trainable Sample.the_world) /\
     exists scope,
       In scope [(Sample.nbsp ++ "InceptionV3/Logits")%string;
         "InceptionV3/AuxLogits "] /\
       String.prefix (strip scope) (var_name v) = true) /\
  exists vars,
    value (run (Sample.framework Sample.the_world)
             (get_trainable_variables
                (Some [(Sample.nbsp ++ "InceptionV3/Logits")%string;
         "InceptionV3/AuxLogits "]))
             0%N) = Ok vars.
Proof.
  split.
  - apply (proj1 (proj2 (get_trainable_variables_exact
                           (Sample.framework Sample.the_world)
                           _ _ sample_framework_collections 0%N))
             [(Sample.nbsp ++ "InceptionV3/Logits")%string;
         "InceptionV3/AuxLogits "]).
    vm_compute. reflexivity.
  - apply (proj2 (proj2 (proj2 (get_trainable_variables_exact
                                  (Sample.framework Sample.the_world)
                                  _ _ sample_framework_collections 0%N)))
             [(Sample.nbsp ++ "InceptionV3/Logits")%string;
         "InceptionV3/AuxLogits "]).
    intros scope s' _. eexists. eexists. reflexivity.
Defined.

(** ** Restoring from a checkpoint *)

Lemma excluded_iff (exclusions : list string) (name : string) :
  excluded exclusions name = true <->
  exists exclusion, In exclusion exclusions /\
                    startswith name exclusion = true.
Proof.
  induction exclusions as [| e rest IH]; simpl.
  - split; [discriminate | intros (x & [] & _)].
  - destruct (startswith name e) eqn:He.
    + split; [intros _; exists e; auto | reflexivity].
    + rewrite IH. split.
      * intros (x & Hx & Hs). exists x. auto.
      * intros (x & [<- | Hx] & Hs); [congruence | exists x; auto].
Qed.

Lemma restore_loop_filter (exclusions : list string)
  (vars acc : list variable) :
  restore_loop exclusions vars acc =
  (acc ++ filter (fun v => negb (excluded exclusions (var_op_name v))) vars)%list.
Proof.
  revert acc. induction vars as [| v rest IH]; intros acc; simpl.
  - symmetry. apply app_nil_r.
  - rewrite IH.
    destruct (negb (excluded exclusions (var_op_name v))); simpl.
    + rewrite <- app_assoc. reflexivity.
    + reflexivity.
Qed.

Lemma exclusions_of_given (scopes : option (list string)) :
  match scopes with
  | Some ((_ :: _) as l) => map strip l
  | _ => []
  end = map strip (given scopes).
Proof. destruct scopes as [[| x l] |]; reflexivity. Qed.

Lemma variables_to_restore_iff (scopes : option (list string))
  (model_variables : list variable) (v : variable) :
  In v (variables_to_restore scopes model_variables) <->
  In v model_variables /\
  forall scope, In scope (given scopes) ->
                startswith (var_op_name v) (strip scope) = false.
Proof.
  unfold variables_to_restore. rewrite filter_In, negb_true_iff.
  split; intros [Hin Hex]; split; try exact Hin.
  - intros scope Hscope.
    destruct (startswith (var_op_name v) (strip scope)) eqn:Hs; [| reflexivity].
    assert (Ht : excluded (map strip (given scopes)) (var_op_name v) = true).
    { apply excluded_iff. exists (strip scope). split; [| exact Hs].
      apply in_map. exact Hscope. }
    congruence.
  - destruct (excluded (map strip (given scopes)) (var_op_name v)) eqn:He;
      [| reflexivity].
    apply excluded_iff in He. destruct He as (e & He & Hs).
    apply in_map_iff in He. destruct He as (scope & <- & Hscope).
    rewrite (Hex scope Hscope) in Hs. discriminate.
Qed.

Section InitFunction.

Context {S : Type} (h : handler S).

Ltac answer H :=
  match type of H with
  | context [h ?X ?c ?s] =>
      let x := fresh "x" in
      let e := fresh "e" in
      let s' := fresh "s" in
      let E := fresh "E" in
      destruct (h X c s) as [[x | e] s'] eqn:E; simpl in H |- *;
      [| try discriminate]
  end.

(** C5: when [get_init_function] returns an init function, the run called
    [slim.assign_from_checkpoint_fn] on exactly the model variables whose
    op name starts with none of the given exclusion scopes, stripped of
    whitespace, in the order of [slim.get_model_variables()]. *)
Theorem get_init_function_restores (s : S) (logdir : string)
  (pretrained_model_path : option string)
  (checkpoint_exclude_scopes : option (list string)) (fn : init_fn) :
  value (run h (get_init_function logdir pretrained_model_path
                  checkpoint_exclude_scopes) s) = Ok (Some fn) ->
  exists (model_variables : list variable) (checkpoint_path : string),
    In (Called get_model_variables model_variables)
       (trace (run h (get_init_function logdir pretrained_model_path
                        checkpoint_exclude_scopes) s)) /\
    In (Called (assign_from_checkpoint_fn checkpoint_path
                  (variables_to_restore checkpoint_exclude_scopes
                     model_variables) false) fn)
       (trace (run h (get_init_function logdir pretrained_model_path
                        checkpoint_exclude_scopes) s)) /\
    forall v,
      In v (variables_to_restore checkpoint_exclude_scopes model_variables)
      <->
      In v model_variables /\
      forall scope, In scope (given checkpoint_exclude_scopes) ->
                    startswith (var_op_name v) (strip scope) = false.
Proof.
  unfold get_init_function.
  destruct pretrained_model_path as [path |]; [| discriminate].
  rewrite exclusions_of_given. simpl. intros H.
  answer H. destruct (truthy x) eqn:Ht; simpl in H |- *.
  { answer H. discriminate. }
  answer H. rename x0 into mv. rewrite restore_loop_filter in *.
  simpl in *. fold (variables_to_restore checkpoint_exclude_scopes mv) in *.
  answer H. destruct x0; simpl in H |- *.
  - answer H. destruct x0 as [ckpt |]; simpl in H |- *; [| discriminate].
    answer H. answer H. injection H as ->.
    exists mv, ckpt. split; [simpl; auto |].
    split; [simpl; auto 10 |]. apply variables_to_restore_iff.
  - answer H. answer H. injection H as ->.
    exists mv, path. split; [simpl; auto |].
    split; [simpl; auto 10 |]. apply variables_to_restore_iff.
Qed.

(** C6: when no checkpoint exists in [logdir] and the pretrained model
    path is a directory in which [tf.train.latest_checkpoint] finds
    nothing, [get_init_function] raises a [ValueError] whose message names
    that directory. *)
Theorem get_init_function_missing_checkpoint (s s1 s2 s3 s4 : S)
  (logdir pretrained_model_path : string)
  (checkpoint_exclude_scopes : option (list string))
  (existing : option string) (model_variables : list variable) :
  h _ (latest_checkpoint logdir) s = (Ok existing, s1) ->
  truthy existing = false ->
  h _ get_model_variables s1 = (Ok model_variables, s2) ->
  h _ (isdir pretrained_model_path) s2 = (Ok true, s3) ->
  h _ (latest_checkpoint pretrained_model_path) s3 = (Ok None, s4) ->
  value (run h (get_init_function logdir (Some pretrained_model_path)
                  checkpoint_exclude_scopes) s) =
  Err (ValueError [VStr ("No model checkpoint file found in directory "
                         ++ pretrained_model_path)]).
Proof.
  intros H1 Ht H2 H3 H4. simpl.
  rewrite H1. rewrite Ht. simpl. rewrite H2. simpl. rewrite H3. simpl.
  rewrite H4. reflexivity.
Qed.

(** C9: [get_init_function] returns [None] without calling the framework
    when no pretrained model path is given; and when a checkpoint exists in
    [logdir] it returns [None] after the two calls that find the checkpoint
    and log the message, whatever the pretrained model path is: the path is
    never examined, so a directory without checkpoint raises nothing. *)
Theorem get_init_function_none (logdir : string)
  (checkpoint_exclude_scopes : option (list string)) :
  get_init_function logdir None checkpoint_exclude_scopes = Ret None /\
  forall (s s1 s2 : S) (pretrained_model_path : string)
         (existing : option string),
    h _ (latest_checkpoint logdir) s = (Ok existing, s1) ->
    truthy existing = true ->
    h _ (logging_info
           ("Ignoring --pretrained_model_path because a checkpoint already exists in "
            ++ logdir)) s1 = (Ok tt, s2) ->
    run h (get_init_function logdir (Some pretrained_model_path)
             checkpoint_exclude_scopes) s =
    {| trace :=
         [Called (latest_checkpoint logdir) existing;
          Called (logging_info
                    ("Ignoring --pretrained_model_path because a checkpoint already exists in "
                     ++ logdir)) tt];
       value := Ok None;
       final := s2 |}.
Proof.
  split; [reflexivity |].
  intros s s1 s2 path existing H1 Ht H2. simpl in H2 |- *.
  rewrite H1. rewrite Ht. simpl. rewrite H2. reflexivity.
Qed.

End InitFunction.

Lemma get_init_function_restores_witness :
  exists (model_variables : list variable) (checkpoint_path : string),
    In (Called get_model_variables model_variables)
       (trace (run (Sample.framework Sample.the_world)
                 (get_init_function "/tmp/logdir"
                    (Some "/models/inception_v3")
                    (Some ["InceptionV3/Logits ";
          (Sample.nbsp ++ "InceptionV3/AuxLogits")%string]))
                 0%N)) /\
    In (Called (assign_from_checkpoint_fn checkpoint_path
                  (variables_to_restore
                     (Some ["InceptionV3/Logits ";
          (Sample.nbsp ++ "InceptionV3/AuxLogits")%string])
                     model_variables) false) (Handle 0%N))
       (trace (run (Sample.framework Sample.the_world)
                 (get_init_function "/tmp/logdir"
                    (Some "/models/inception_v3")
                    (Some ["InceptionV3/Logits ";
          (Sample.nbsp ++ "InceptionV3/AuxLogits")%string]))
                 0%N)) /\
    forall v,
      In v (variables_to_restore
              (Some ["InceptionV3/Logits ";
          (Sample.nbsp ++ "InceptionV3/AuxLogits")%string])
              model_variables)
      <->
      In v model_variables /\
      forall scope,
        In scope (given (Some ["InceptionV3/Logits ";
          (Sample.nbsp ++ "InceptionV3/AuxLogits")%string])) ->
        startswith (var_op_name v) (strip scope) = false.
Proof.
  apply (get_init_function_restores (Sample.framework Sample.the_world) 0%N
           "/tmp/logdir" (Some "/models/inception_v3")
           (Some ["InceptionV3/Logits ";
          (Sample.nbsp ++ "InceptionV3/AuxLogits")%string])
           (Handle 0%N)).
  vm_compute. reflexivity.
Defined.

Lemma get_init_function_missing_checkpoint_witness :
  value (run (Sample.framework Sample.the_world)
           (get_init_function "/tmp/logdir" (Some "/models/empty") None)
           0%N) =
  Err (ValueError
         [VStr "No model checkpoint file found in directory /models/empty"]).
Proof.
  apply (get_init_function_missing_checkpoint
           (Sample.framework Sample.the_world) 0%N 0%N 0%N 0%N 0%N
           "/tmp/logdir" "/models/empty" None None
           (Sample.w_model Sample.the_world));
    reflexivity.
Defined.

Lemma get_init_function_none_witness :
  run (Sample.framework Sample.resumed_world)
    (get_init_function "/tmp/logdir" (Some "/models/empty") None) 0%N =
  {| trace :=
       [Called (latest_checkpoint "/tmp/logdir")
          (Some "/tmp/logdir/model.ckpt-5");
        Called (logging_info
                  ("Ignoring --pretrained_model_path because a checkpoint already exists in "
                   ++ "/tmp/logdir")) tt];
     value := Ok None;
     final := 0%N |}.
Proof.
  apply (proj2 (get_init_function_none
                  (Sample.framework Sample.resumed_world) "/tmp/logdir" None)
           0%N 0%N 0%N "/models/empty" (Some "/tmp/logdir/model.ckpt-5"));
    reflexivity.
Defined.

(** ** The order in which [train] builds the graph *)

Ltac skip_bookkeeping :=
  repeat match goal with
  | |- context [enter None ?l] => change (enter None l) with l
  end.

Lemma on_return_run {S R : Type} (h : handler S) (p : prog R)
  (P : list Stage.t -> R -> Prop) :
  forall (seen : list Stage.t) (s : S) (r : R),
    on_return p seen P ->
    value (run h p s) = Ok r ->
    P (fold_left record (trace (run h p s)) seen) r.
Proof.
  induction p as [r0 | e | X c k IH]; intros seen s r Hp Hv; simpl in *.
  - injection Hv as <-. exact Hp.
  - discriminate.
  - destruct (h X c s) as [[x | e] s']; simpl in *; [| discriminate].
    apply IH; auto.
Qed.

Lemma on_return_bind {A B : Type} (p : prog A) (f : A -> prog B)
  (P : list Stage.t -> B -> Prop) :
  forall seen,
    on_return p seen (fun seen' a => on_return (f a) seen' P) ->
    on_return (bind p f) seen P.
Proof.
  induction p as [r0 | e | X c k IH]; intros seen Hp; simpl in *; auto.
Qed.

Lemma on_return_mono {R : Type} (p : prog R)
  (P Q : list Stage.t -> R -> Prop) :
  (forall seen r, P seen r -> Q seen r) ->
  forall seen, on_return p seen P -> on_return p seen Q.
Proof.
  intros HPQ. induction p as [r0 | e | X c k IH]; intros seen Hp;
    simpl in *; auto.
Qed.

Lemma configure_learning_rate_stage (global_step : tensor) (cfg : config)
  (seen : list Stage.t) :
  on_return (_configure_learning_rate global_step cfg) seen
    (fun seen' _ => seen' = enter (Some Stage.learning_rate) seen).
Proof.
  unfold _configure_learning_rate.
  destruct (decay_steps cfg) as [d | e]; simpl; [| exact I].
  string_cases (LEARNING_RATE_DECAY_TYPE cfg); simpl; auto.
Qed.

Lemma configure_optimizer_stage (learning_rate : tensor) (cfg : config)
  (seen : list Stage.t) :
  on_return (_configure_optimizer learning_rate cfg) seen
    (fun seen' _ => seen' = enter (Some Stage.optimizer) seen).
Proof.
  unfold _configure_optimizer.
  string_cases (OPTIMIZER cfg); simpl; auto.
Qed.

Lemma get_trainable_variables_stage (scopes : option (list string))
  (seen : list Stage.t) :
  on_return (get_trainable_variables scopes) seen
    (fun seen' _ => seen' = seen).
Proof.
  destruct scopes as [l |]; simpl; [| auto].
  generalize (@nil variable). induction (map strip l) as [| sc rest IH];
    intros acc; simpl; auto.
Qed.

Lemma get_init_function_stage (logdir : string) (path : option string)
  (scopes : option (list string)) (seen : list Stage.t) :
  enter (Some Stage.checkpointing) seen = seen ->
  on_return (get_init_function logdir path scopes) seen
    (fun seen' _ => seen' = seen).
Proof.
  intros Hseen. unfold get_init_function.
  destruct path as [p |]; simpl; [| reflexivity].
  intros existing. rewrite Hseen.
  destruct (truthy existing); simpl; [auto |].
  intros mv is_dir. skip_bookkeeping. rewrite Hseen.
  destruct is_dir; simpl.
  - intros [ckpt |]; simpl; rewrite ?Hseen; auto.
  - intros _ fn. skip_bookkeeping. rewrite Hseen. reflexivity.
Qed.

Lemma train_stages (tfrecords : list string) (logdir : string) (cfg : config)
  (pretrained_model_path : option string)
  (trainable_scopes checkpoint_exclude_scopes : option (list string)) :
  on_return (train tfrecords logdir cfg pretrained_model_path
               trainable_scopes checkpoint_exclude_scopes) []
    (fun seen _ => rev seen = build_order).
Proof.
  unfold train. simpl. intros _ g _ global_step.
  apply on_return_bind.
  eapply on_return_mono; [| apply configure_learning_rate_stage].
  intros seen1 lr ->. simpl.
  apply on_return_bind.
  eapply on_return_mono; [| apply configure_optimizer_stage].
  intros seen2 opt ->. simpl.
  intros batch_dict.
  destruct (dict_get batch_dict "labels") as [labels | e]; simpl;
    [| exact I].
  intros one_hot input_summaries scope_fn arg_scope net_fn.
  destruct (dict_get batch_dict "inputs") as [inputs | e]; simpl;
    [| exact I].
  intros [logits end_points].
  assert (Hrest : forall seen3,
            rev seen3 =
            [Stage.learning_rate; Stage.optimizer; Stage.input_pipeline;
             Stage.network; Stage.loss; Stage.moving_average] ->
            forall total_loss : tensor,
              on_return
                (trainable_vars <- get_trainable_variables trainable_scopes ;;
                 train_op <- call (create_train_op total_loss opt
                                     trainable_vars) ;;
                 loss_summary <- call (summary_scalar "total_loss"
                                         total_loss) ;;
                 lr_summary <- call (summary_scalar "learning_rate" lr) ;;
                 summary_op <- call (summary_merge
                                       ([loss_summary; lr_summary]
                                        ++ input_summaries)) ;;
                 gpu <- call (GPUOptions
                                (PER_PROCESS_GPU_MEMORY_FRACTION
                                   (SESSION_CONFIG cfg))) ;;
                 sess_config <- call (ConfigProto
                                        (LOG_DEVICE_PLACEMENT
                                           (SESSION_CONFIG cfg))
                                        true gpu) ;;
                 sv <- call (Saver (MAX_TO_KEEP cfg)
                               (KEEP_CHECKPOINT_EVERY_N_HOURS cfg)) ;;
                 init <- get_init_function logdir pretrained_model_path
                           checkpoint_exclude_scopes ;;
                 call (learning_train train_op logdir init
                         (NUM_TRAIN_ITERATIONS cfg) (SAVE_SUMMARY_SECS cfg)
                         (SAVE_INTERVAL_SECS cfg) sv sess_config summary_op
                         (LOG_EVERY_N_STEPS cfg)))
                seen3
                (fun seen _ => rev seen = build_order)).
  { intros seen3 Hseen3 total_loss.
    assert (E : seen3 =
                [Stage.moving_average; Stage.loss; Stage.network;
                 Stage.input_pipeline; Stage.optimizer;
                 Stage.learning_rate]).
    { rewrite <- (rev_involutive seen3), Hseen3. reflexivity. }
    rewrite E.
    apply on_return_bind.
    eapply on_return_mono; [| apply get_trainable_variables_stage].
    intros seen4 trainable_vars ->. simpl.
    intros train_op loss_summary lr_summary summary_op gpu sess_config sv.
    apply on_return_bind.
    eapply on_return_mono;
      [| apply get_init_function_stage; reflexivity].
    intros seen5 init ->. simpl. intros _. reflexivity. }
  apply on_return_bind.
  destruct (dict_in "AuxLogits" end_points); simpl.
  - destruct (dict_get end_points "AuxLogits") as [aux_logits | e]; simpl;
      [| exact I].
    intros aux_loss main_loss total_loss ema vars op added.
    apply Hrest. reflexivity.
  - intros main_loss total_loss ema vars op added.
    apply Hrest. reflexivity.
Qed.

(** C7, as amended: every run of [train] that completes builds the graph
    in the sequence learning-rate schedule, optimizer, input pipeline,
    network, loss, moving-average tracking, train op, summaries, session
    configuration, checkpointing, and only then hands over to the
    framework's training loop; among the stages the overview names, the
    optimizer is constructed first, before the input pipeline. *)
Theorem train_build_order {S : Type} (h : handler S) (s : S)
  (tfrecords : list string) (logdir : string) (cfg : config)
  (pretrained_model_path : option string)
  (trainable_scopes checkpoint_exclude_scopes : option (list string)) :
  value (run h (train tfrecords logdir cfg pretrained_model_path
                  trainable_scopes checkpoint_exclude_scopes) s) = Ok tt ->
  stage_sequence
    (trace (run h (train tfrecords logdir cfg pretrained_model_path
                     trainable_scopes checkpoint_exclude_scopes) s)) =
  build_order /\
  overview_stages
    (stage_sequence
       (trace (run h (train tfrecords logdir cfg pretrained_model_path
                        trainable_scopes checkpoint_exclude_scopes) s))) =
  [Stage.optimizer; Stage.input_pipeline; Stage.network; Stage.loss;
   Stage.moving_average; Stage.checkpointing; Stage.training_loop].
Proof.
  intros Hv.
  assert (E : stage_sequence
                (trace (run h (train tfrecords logdir cfg
                                 pretrained_model_path trainable_scopes
                                 checkpoint_exclude_scopes) s)) =
              build_order).
  { unfold stage_sequence.
    exact (on_return_run h _ _ [] s tt
             (train_stages tfrecords logdir cfg pretrained_model_path
                trainable_scopes checkpoint_exclude_scopes) Hv). }
  split; [exact E |]. rewrite E. reflexivity.
Qed.

Lemma train_build_order_witness :
  stage_sequence
    (trace (run (Sample.framework Sample.the_world)
              (train ["train-00000.tfrecords"] "/tmp/logdir"
                 (Sample.cfg "exponential" "rmsprop" (PInt 32))
                 (Some "/models/inception_v3")
                 (Some [" InceptionV3/Logits"])
                 (Some ["InceptionV3/Logits "])) 0%N)) =
  build_order.
Proof.
  apply (train_build_order (Sample.framework Sample.the_world) 0%N
           ["train-00000.tfrecords"] "/tmp/logdir"
           (Sample.cfg "exponential" "rmsprop" (PInt 32))
           (Some "/models/inception_v3")
           (Some [" InceptionV3/Logits"])
           (Some ["InceptionV3/Logits "])).
  vm_compute. reflexivity.
Defined.

(** C7 as stated fails: on a run that completes, the stages the overview
    names are not entered in the overview's order, whether "optimizer" is
    read as the construction of the optimizer (lines 216-219, before the
    input pipeline) or as the creation of the train op (line 279, after the
    moving averages). *)
Lemma train_not_in_overview_order :
  value (run (Sample.framework Sample.the_world)
           (train ["train-00000.tfrecords"] "/tmp/logdir"
              (Sample.cfg "exponential" "rmsprop" (PInt 32))
              (Some "/models/inception_v3")
              (Some [" InceptionV3/Logits"])
              (Some ["InceptionV3/Logits "])) 0%N) = Ok tt /\
  overview_stages
    (stage_sequence
       (trace (run (Sample.framework Sample.the_world)
                 (train ["train-00000.tfrecords"] "/tmp/logdir"
                    (Sample.cfg "exponential" "rmsprop" (PInt 32))
                    (Some "/models/inception_v3")
                    (Some [" InceptionV3/Logits"])
                    (Some ["InceptionV3/Logits "])) 0%N))) <>
  overview_order /\
  overview_stages
    (optimizer_as_train_op
       (stage_sequence
          (trace (run (Sample.framework Sample.the_world)
                    (train ["train-00000.tfrecords"] "/tmp/logdir"
                       (Sample.cfg "exponential" "rmsprop" (PInt 32))
                       (Some "/models/inception_v3")
                       (Some [" InceptionV3/Logits"])
                       (Some ["InceptionV3/Logits "])) 0%N)))) <>
  overview_order.
Proof.
  split; [vm_compute; reflexivity |].
  split; vm_compute; discriminate.
Qed.

(** ** Command-line overrides *)

(** C8: [main] trains with the configuration read from the configuration
    file in which [NUM_TRAIN_ITERATIONS], [LEARNING_RATE_DECAY_TYPE],
    [INITIAL_LEARNING_RATE], [BATCH_SIZE] and [MODEL_NAME] are replaced by
    [--max_number_of_steps], [--learning_rate_decay_type], [--lr],
    [--batch_size] and [--model_name] exactly when the option is supplied;
    each of the five keeps the value of the file when its option is absent,
    and every other field is the file's. *)
Theorem main_overrides :
  main =
  (args <- call parse_args ;;
   cfg <- call (parse_config_file (config_file args)) ;;
   train (tfrecords args) (logdir args) (replace_cfg_parameters args cfg)
     (pretrained_model args) (trainable_scopes args)
     (checkpoint_exclude_scopes args)) /\
  forall (args : arguments) (cfg : config),
    replace_cfg_parameters args cfg =
    {|
       NUM_TRAIN_EXAMPLES := NUM_TRAIN_EXAMPLES cfg;
       BATCH_SIZE :=
         match batch_size args with
         | Some v => PInt v
         | None => BATCH_SIZE cfg
         end;
       NUM_EPOCHS_PER_DELAY := NUM_EPOCHS_PER_DELAY cfg;
       LEARNING_RATE_DECAY_TYPE :=
         match learning_rate_decay_type args with
         | Some v => v
         | None => LEARNING_RATE_DECAY_TYPE cfg
         end;
       INITIAL_LEARNING_RATE :=
         match learning_rate args with
         | Some v => PFloat v
         | None => INITIAL_LEARNING_RATE cfg
         end;
       LEARNING_RATE_DECAY_FACTOR := LEARNING_RATE_DECAY_FACTOR cfg;
       LEARNING_RATE_STAIRCASE := LEARNING_RATE_STAIRCASE cfg;
       END_LEARNING_RATE := END_LEARNING_RATE cfg;
       OPTIMIZER := OPTIMIZER cfg;
       ADADELTA_RHO := ADADELTA_RHO cfg;
       OPTIMIZER_EPSILON := OPTIMIZER_EPSILON cfg;
       ADAGRAD_INITIAL_ACCUMULATOR_VALUE := ADAGRAD_INITIAL_ACCUMULATOR_VALUE cfg;
       ADAM_BETA1 := ADAM_BETA1 cfg;
       ADAM_BETA2 := ADAM_BETA2 cfg;
       FTRL_LEARNING_RATE_POWER := FTRL_LEARNING_RATE_POWER cfg;
       FTRL_INITIAL_ACCUMULATOR_VALUE := FTRL_INITIAL_ACCUMULATOR_VALUE cfg;
       FTRL_L1 := FTRL_L1 cfg;
       FTRL_L2 := FTRL_L2 cfg;
       MOMENTUM := MOMENTUM cfg;
       RMSPROP_DECAY := RMSPROP_DECAY cfg;
       IMAGE_PROCESSING := IMAGE_PROCESSING cfg;
       NUM_INPUT_THREADS := NUM_INPUT_THREADS cfg;
       SHUFFLE_QUEUE := SHUFFLE_QUEUE cfg;
       RANDOM_SEED := RANDOM_SEED cfg;
       QUEUE_CAPACITY := QUEUE_CAPACITY cfg;
       QUEUE_MIN := QUEUE_MIN cfg;
       NUM_CLASSES := NUM_CLASSES cfg;
       MODEL_NAME :=
         match model_name args with
         | Some v => v
         | None => MODEL_NAME cfg
         end;
       WEIGHT_DECAY := WEIGHT_DECAY cfg;
       BATCHNORM_MOVING_AVERAGE_DECAY := BATCHNORM_MOVING_AVERAGE_DECAY cfg;
       BATCHNORM_EPSILON := BATCHNORM_EPSILON cfg;
       DROPOUT_KEEP_PROB := DROPOUT_KEEP_PROB cfg;
       MOVING_AVERAGE_DECAY := MOVING_AVERAGE_DECAY cfg;
       SESSION_CONFIG := SESSION_CONFIG cfg;
       MAX_TO_KEEP := MAX_TO_KEEP cfg;
       KEEP_CHECKPOINT_EVERY_N_HOURS := KEEP_CHECKPOINT_EVERY_N_HOURS cfg;
       NUM_TRAIN_ITERATIONS :=
         match max_number_of_steps args with
         | Some v => PInt v
         | None => NUM_TRAIN_ITERATIONS cfg
         end;
       SAVE_SUMMARY_SECS := SAVE_SUMMARY_SECS cfg;
       SAVE_INTERVAL_SECS := SAVE_INTERVAL_SECS cfg;
       LOG_EVERY_N_STEPS := LOG_EVERY_N_STEPS cfg |}.
Proof.
  split; [reflexivity |].
  intros args cfg. unfold replace_cfg_parameters.
  destruct cfg.
  destruct (max_number_of_steps args), (learning_rate_decay_type args),
    (learning_rate args), (batch_size args), (model_name args);
    reflexivity.
Qed.

(** * Further properties *)

(** ** Every outcome of [_configure_learning_rate] *)

(** X1: for a configuration whose numeric fields hold ints or floats and
    whose decay type is a string, [_configure_learning_rate] is either one
    call of the schedule constructor of a recognized decay type
    ([tf.train.exponential_decay] for ['exponential'], [tf.constant] for
    ['fixed'], [tf.train.polynomial_decay] for ['polynomial']) once
    [decay_steps] has evaluated, or a raise before any call; the only
    errors it raises itself are [ZeroDivisionError], [OverflowError], the
    [ValueError] of [int] on a NaN, and the [ValueError] naming the decay
    type. *)
Theorem configure_learning_rate_outcomes
  (global_step : tensor) (cfg : config) :
  (exists d,
     decay_steps cfg = Ok d /\
     ((LEARNING_RATE_DECAY_TYPE cfg = "exponential" /\
       _configure_learning_rate global_step cfg =
       call (exponential_decay (INITIAL_LEARNING_RATE cfg) global_step d
               (LEARNING_RATE_DECAY_FACTOR cfg) (LEARNING_RATE_STAIRCASE cfg)
               "exponential_decay_learning_rate")) \/
      (LEARNING_RATE_DECAY_TYPE cfg = "fixed" /\
       _configure_learning_rate global_step cfg =
       call (constant (INITIAL_LEARNING_RATE cfg) "fixed_learning_rate")) \/
      (LEARNING_RATE_DECAY_TYPE cfg = "polynomial" /\
       _configure_learning_rate global_step cfg =
       call (polynomial_decay (INITIAL_LEARNING_RATE cfg) global_step d
               (END_LEARNING_RATE cfg) (PFloat 1) false
               "polynomial_decay_learning_rate")))) \/
  (exists e,
     _configure_learning_rate global_step cfg = Raise e /\
     (e = ZeroDivisionError \/ e = OverflowError \/
      e = ValueError [VStr "cannot convert float NaN to integer"] \/
      (e = decay_type_error cfg /\
       ~ In (LEARNING_RATE_DECAY_TYPE cfg) decay_types))).
Proof.
  destruct (decay_steps cfg) as [d | e] eqn:Hd.
  - destruct (in_dec string_dec (LEARNING_RATE_DECAY_TYPE cfg) decay_types)
      as [Hin | Hn].
    + left. exists d. split; [reflexivity |].
      unfold _configure_learning_rate. rewrite Hd. simpl. simpl in Hin.
      destruct Hin as [H | [H | [H | []]]]; rewrite <- H; simpl; auto.
    + right. exists (decay_type_error cfg). split.
      * exact (learning_rate_unrecognized global_step cfg d Hd Hn).
      * auto.
  - right. exists e. split.
    + unfold _configure_learning_rate. rewrite Hd. reflexivity.
    + destruct (decay_steps_error cfg e Hd) as [E | [E | E]]; auto.
Qed.

(** X2: an integer [BATCH_SIZE] of zero makes [_configure_learning_rate]
    raise [ZeroDivisionError], whatever the other fields hold; a zero
    [BATCH_SIZE] of either type leaves only [ZeroDivisionError] or, for an
    integer [NUM_TRAIN_EXAMPLES] beyond the floats, [OverflowError]. *)
Theorem configure_learning_rate_zero_batch
  (global_step : tensor) (cfg : config) :
  (BATCH_SIZE cfg = PInt 0 ->
   _configure_learning_rate global_step cfg = Raise ZeroDivisionError) /\
  (PyArith.is_zero (BATCH_SIZE cfg) = true ->
   _configure_learning_rate global_step cfg = Raise ZeroDivisionError \/
   _configure_learning_rate global_step cfg = Raise OverflowError).
Proof.
  unfold _configure_learning_rate, decay_steps, PyArith.truediv. split.
  - intros ->. destruct (NUM_TRAIN_EXAMPLES cfg) as [x | f]; reflexivity.
  - intros Hb.
    destruct (NUM_TRAIN_EXAMPLES cfg) as [x | fa],
             (BATCH_SIZE cfg) as [y | fb]; simpl in *.
    + apply Z.eqb_eq in Hb. subst y. left. reflexivity.
    + destruct (PyArith.float_of_int x) as [fx | e] eqn:E; simpl.
      * rewrite Hb. left. reflexivity.
      * apply float_of_int_error in E. subst e. right. reflexivity.
    + apply Z.eqb_eq in Hb. subst y. left. reflexivity.
    + rewrite Hb. left. reflexivity.
Qed.

Lemma configure_learning_rate_zero_batch_witness :
  _configure_learning_rate (Handle 7) (Sample.cfg "fixed" "sgd" (PInt 0)) =
  Raise ZeroDivisionError /\
  (_configure_learning_rate (Handle 7) (Sample.cfg "fixed" "sgd" (PFloat (-0))) =
   Raise ZeroDivisionError \/
   _configure_learning_rate (Handle 7) (Sample.cfg "fixed" "sgd" (PFloat (-0))) =
   Raise OverflowError).
Proof.
  split.
  - apply (proj1 (configure_learning_rate_zero_batch (Handle 7)
                    (Sample.cfg "fixed" "sgd" (PInt 0)))).
    reflexivity.
  - apply (proj2 (configure_learning_rate_zero_batch (Handle 7)
                    (Sample.cfg "fixed" "sgd" (PFloat (-0))))).
    vm_compute. reflexivity.
Defined.

(** ** Whitespace around scopes *)

Lemma lstrip_step (s : string) :
  lstrip s =
  match leading_space s with
  | Some rest => lstrip rest
  | None => s
  end.
Proof.
  destruct s as [| a [| b [| c s3]]]; simpl; try reflexivity.
  - destruct (space1 a); reflexivity.
  - destruct (space1 a); [reflexivity |]. destruct (space2 a b); reflexivity.
  - destruct (space1 a); [reflexivity |].
    destruct (space2 a b); [reflexivity |].
    destruct (space3 a b c); reflexivity.
Qed.

Lemma leading_space_shorter (s rest : string) :
  leading_space s = Some rest -> (String.length rest < String.length s)%nat.
Proof.
  destruct s as [| a [| b [| c s3]]]; simpl; try discriminate.
  - destruct (space1 a); [| discriminate].
    intros H. injection H as <-. simpl. lia.
  - destruct (space1 a); [intros H; injection H as <-; simpl; lia |].
    destruct (space2 a b); [| discriminate].
    intros H. injection H as <-. simpl. lia.
  - destruct (space1 a); [intros H; injection H as <-; simpl; lia |].
    destruct (space2 a b); [intros H; injection H as <-; simpl; lia |].
    destruct (space3 a b c); [| discriminate].
    intros H. injection H as <-. simpl. lia.
Qed.

Lemma lstrip_no_leading_space (s : string) : leading_space (lstrip s) = None.
Proof.
  remember (String.length s) as n eqn:Hn. revert s Hn.
  induction n as [n IH] using lt_wf_ind. intros s Hn.
  rewrite lstrip_step.
  destruct (leading_space s) as [rest |] eqn:Hs; [| exact Hs].
  apply (IH (String.length rest)); [| reflexivity].
  subst n. apply leading_space_shorter. exact Hs.
Qed.

Lemma lstrip_fixed (s : string) : leading_space s = None -> lstrip s = s.
Proof. intros H. rewrite lstrip_step, H. reflexivity. Qed.

Lemma rstrip_step (c : ascii) (s : string) :
  rstrip (String c s) =
  if is_space_string (String c (rstrip s)) then EmptyString
  else String c (rstrip s).
Proof. reflexivity. Qed.

Lemma rstrip_cons (s rest : string) (b : ascii) :
  rstrip s = String b rest ->
  exists s', s = String b s' /\ rest = rstrip s'.
Proof.
  destruct s as [| c s']; [discriminate |].
  rewrite rstrip_step.
  destruct (is_space_string (String c (rstrip s'))); [discriminate |].
  intros H. injection H as -> <-. eauto.
Qed.

Lemma rstrip_no_leading_space (s : string) :
  leading_space s = None -> leading_space (rstrip s) = None.
Proof.
  destruct s as [| a s1]; [reflexivity |]. intros Hs.
  rewrite rstrip_step.
  destruct (is_space_string (String a (rstrip s1))); [reflexivity |].
  simpl in Hs. destruct (space1 a) eqn:H1; [discriminate |].
  cbn [leading_space]. rewrite H1.
  destruct (rstrip s1) as [| b r1] eqn:Hr1; [reflexivity |].
  destruct (rstrip_cons _ _ _ Hr1) as (s2 & -> & ->).
  destruct (space2 a b) eqn:H2; [discriminate |].
  destruct (rstrip s2) as [| c r2] eqn:Hr2; [reflexivity |].
  destruct (rstrip_cons _ _ _ Hr2) as (s3 & -> & ->).
  destruct (space3 a b c); [discriminate | reflexivity].
Qed.

Lemma rstrip_idempotent (s : string) : rstrip (rstrip s) = rstrip s.
Proof.
  induction s as [| c s IH]; [reflexivity |].
  rewrite rstrip_step.
  destruct (is_space_string (String c (rstrip s))) eqn:Hc; [reflexivity |].
  rewrite rstrip_step, IH, Hc. reflexivity.
Qed.

(** Whitespace outside ASCII is stripped as well. *)
Lemma strip_unicode_whitespace :
  strip (Sample.nbsp ++ "InceptionV3/Logits" ++ Sample.ideographic_space) =
  "InceptionV3/Logits" /\
  strip Sample.blank = "" /\
  strip ("a" ++ Sample.nbsp ++ "b") = ("a" ++ Sample.nbsp ++ "b")%string.
Proof. vm_compute. repeat split. Qed.

Lemma strip_idempotent (s : string) : strip (strip s) = strip s.
Proof.
  unfold strip.
  rewrite (lstrip_fixed (rstrip (lstrip s))).
  - apply rstrip_idempotent.
  - apply rstrip_no_leading_space, lstrip_no_leading_space.
Qed.

Lemma map_strip_idempotent (scopes : list string) :
  map strip (map strip scopes) = map strip scopes.
Proof.
  rewrite map_map. apply map_ext. intros s. apply strip_idempotent.
Qed.

(** X3: scopes are compared after stripping, so scopes that differ only by
    surrounding whitespace select the same variables:
    [get_trainable_variables] is the same program on the stripped scopes,
    and every run of [get_init_function] is the same on the stripped
    exclusion scopes. *)
Theorem scopes_whitespace_insensitive (scopes : list string) :
  get_trainable_variables (Some (map strip scopes)) =
  get_trainable_variables (Some scopes) /\
  forall (S : Type) (h : handler S) (s : S) (logdir : string)
         (pretrained_model_path : option string),
    run h (get_init_function logdir pretrained_model_path
             (Some (map strip scopes))) s =
    run h (get_init_function logdir pretrained_model_path (Some scopes)) s.
Proof.
  split.
  - unfold get_trainable_variables. rewrite map_strip_idempotent.
    reflexivity.
  - intros S h s logdir [path |]; [| reflexivity].
    destruct scopes as [| x l]; [reflexivity |].
    unfold get_init_function.
    cbn [run bind call map trace value final].
    destruct (h _ (latest_checkpoint logdir) s) as [[existing | e] s1];
      [| reflexivity].
    destruct (truthy existing); [reflexivity |].
    cbn [run bind call map trace value final].
    destruct (h _ get_model_variables s1) as [[mv | e] s2]; [| reflexivity].
    rewrite strip_idempotent, map_strip_idempotent. reflexivity.
Qed.

(** ** The variables selected for training, as a list *)

Section TrainableVariablesRun.

Context {S : Type} (h : handler S).
Variable trainable : S -> list variable.
Variable matches : string -> string -> bool.
Hypothesis contract : answers_collections h trainable matches.

Lemma extend_with_scopes_outcome (scopes : list string)
  (acc : list variable) (s : S) (vars : list variable) :
  value (run h (extend_with_scopes scopes acc) s) = Ok vars ->
  vars =
    (acc ++ flat_map
              (fun scope =>
                 filter (fun v => matches scope (var_name v)) (trainable s))
              scopes)%list /\
  trace (run h (extend_with_scopes scopes acc) s) =
    map (fun scope =>
           Called (get_collection TRAINABLE_VARIABLES (Some scope))
             (filter (fun v => matches scope (var_name v)) (trainable s)))
        scopes /\
  trainable (final (run h (extend_with_scopes scopes acc) s)) = trainable s.
Proof.
  revert acc s. induction scopes as [| scope rest IH]; intros acc s; simpl.
  - rewrite app_nil_r. intros H. injection H as <-. auto.
  - destruct (h _ (get_collection TRAINABLE_VARIABLES (Some scope)) s)
      as [[answer | e] s'] eqn:Hh; simpl; [| discriminate].
    destruct (proj2 contract s scope answer s' Hh) as [-> Hs'].
    intros Hv. destruct (IH _ _ Hv) as (Hvars & Htrace & Hfinal).
    rewrite Hs' in Hvars, Htrace, Hfinal.
    rewrite <- app_assoc in Hvars. rewrite Htrace. auto.
Qed.

(** X4: in every run of [get_trainable_variables] with scopes that
    returns, the graph was asked once for each scope, in the order given
    and with the scope stripped, the collection of trainable variables is
    as before, and the result is the answers concatenated in that order: a
    variable is listed once for each scope it matches, and an empty list
    of scopes selects no variable. *)
Theorem get_trainable_variables_run (scopes : list string) (s : S)
  (vars : list variable) :
  value (run h (get_trainable_variables (Some scopes)) s) = Ok vars ->
  vars =
    flat_map
      (fun scope =>
         filter (fun v => matches (strip scope) (var_name v)) (trainable s))
      scopes /\
  trace (run h (get_trainable_variables (Some scopes)) s) =
    map (fun scope =>
           Called (get_collection TRAINABLE_VARIABLES (Some (strip scope)))
             (filter (fun v => matches (strip scope) (var_name v))
                     (trainable s)))
        scopes /\
  trainable (final (run h (get_trainable_variables (Some scopes)) s)) =
  trainable s.
Proof.
  unfold get_trainable_variables. intros Hv.
  destruct (extend_with_scopes_outcome _ _ _ _ Hv)
    as (Hvars & Htrace & Hfinal).
  rewrite Htrace, map_map. simpl in Hvars.
  split; [| split; [reflexivity | exact Hfinal]].
  rewrite Hvars. clear.
  induction scopes as [| scope rest IH]; simpl; [reflexivity |].
  rewrite IH. reflexivity.
Qed.

End TrainableVariablesRun.

Lemma get_trainable_variables_run_witness :
  [Sample.var "InceptionV3/Logits/weights";
   Sample.var "InceptionV3/Logits/weights";
   Sample.var "InceptionV3/Conv2d_1a_3x3/weights";
   Sample.var "InceptionV3/Logits/weights";
   Sample.var "InceptionV3/AuxLogits/weights"] =
  flat_map
    (fun scope =>
       filter (fun v => String.prefix (strip scope) (var_name v))
              (Sample.w_trainable Sample.the_world))
    ["InceptionV3/Logits";
     (Sample.nbsp ++ "InceptionV3/Logits" ++ Sample.ideographic_space)%string;
     "Inc"].
Proof.
  apply (get_trainable_variables_run (Sample.framework Sample.the_world)
           _ _ sample_framework_collections
           ["InceptionV3/Logits";
     (Sample.nbsp ++ "InceptionV3/Logits" ++ Sample.ideographic_space)%string;
     "Inc"] 0%N).
  vm_compute. reflexivity.
Defined.

(** ** Which checkpoint is restored, and which variables *)

Section InitFunctionRun.

Context {S : Type} (h : handler S).

(** X5: with no checkpoint in [logdir], [get_init_function] returns the
    function that [slim.assign_from_checkpoint_fn] builds, with
    [ignore_missing_vars=False], for the variables left by the exclusion
    loop and for this checkpoint: the pretrained model path itself when it
    is not a directory, the latest checkpoint of the directory when it is
    one. *)
Theorem get_init_function_checkpoint (s s1 s2 s3 s4 s5 s6 : S)
  (logdir pretrained_model_path checkpoint_path : string)
  (checkpoint_exclude_scopes : option (list string))
  (existing : option string) (model_variables : list variable)
  (is_dir : bool) (fn : init_fn) :
  h _ (latest_checkpoint logdir) s = (Ok existing, s1) ->
  truthy existing = false ->
  h _ get_model_variables s1 = (Ok model_variables, s2) ->
  h _ (isdir pretrained_model_path) s2 = (Ok is_dir, s3) ->
  (if is_dir
   then h _ (latest_checkpoint pretrained_model_path) s3 =
        (Ok (Some checkpoint_path), s4)
   else checkpoint_path = pretrained_model_path /\ s4 = s3) ->
  h _ (logging_info ("Fine-tuning from " ++ checkpoint_path)) s4 =
  (Ok tt, s5) ->
  h _ (assign_from_checkpoint_fn checkpoint_path
         (restore_loop (map strip (given checkpoint_exclude_scopes))
            model_variables [])
         false) s5 = (Ok fn, s6) ->
  value (run h (get_init_function logdir (Some pretrained_model_path)
                  checkpoint_exclude_scopes) s) = Ok (Some fn) /\
  final (run h (get_init_function logdir (Some pretrained_model_path)
                  checkpoint_exclude_scopes) s) = s6.
Proof.
  intros H1 Ht H2 H3 H4 H5 H6.
  rewrite <- exclusions_of_given in H6.
  unfold get_init_function.
  cbn [run bind call trace value final]. rewrite H1.
  cbn [run bind call trace value final]. rewrite Ht.
  cbn [run bind call trace value final]. rewrite H2.
  cbn [run bind call trace value final]. rewrite H3.
  destruct is_dir.
  - cbn [run bind call trace value final]. rewrite H4.
    cbn [run bind call trace value final]. rewrite H5.
    cbn [run bind call trace value final]. rewrite H6.
    split; reflexivity.
  - destruct H4 as [-> ->].
    cbn [run bind call trace value final]. rewrite H5.
    cbn [run bind call trace value final]. rewrite H6.
    split; reflexivity.
Qed.

End InitFunctionRun.

Lemma get_init_function_checkpoint_witness :
  value (run (Sample.framework Sample.the_world)
           (get_init_function "/tmp/logdir" (Some "/models/inception_v3")
              (Some [("InceptionV3/Logits" ++ Sample.ideographic_space)%string])) 0%N) = Ok (Some (Handle 0%N)) /\
  value (run (Sample.framework Sample.the_world)
           (get_init_function "/tmp/logdir" (Some "/models/model.ckpt-7")
              None) 5%N) = Ok (Some (Handle 5%N)).
Proof.
  split.
  - apply (get_init_function_checkpoint (Sample.framework Sample.the_world)
             0%N 0%N 0%N 0%N 0%N 0%N 1%N
             "/tmp/logdir" "/models/inception_v3"
             "/models/inception_v3/model.ckpt-1000"
             (Some [("InceptionV3/Logits" ++ Sample.ideographic_space)%string]) None
             (Sample.w_model Sample.the_world) true (Handle 0%N));
      reflexivity.
  - apply (get_init_function_checkpoint (Sample.framework Sample.the_world)
             5%N 5%N 5%N 5%N 5%N 5%N 6%N
             "/tmp/logdir" "/models/model.ckpt-7" "/models/model.ckpt-7"
             None None (Sample.w_model Sample.the_world) false
             (Handle 5%N));
      try reflexivity.
    split; reflexivity.
Defined.

(** X6: the only error [get_init_function] itself raises is the
    [ValueError] for a pretrained model directory without checkpoint; with
    no pretrained model path it raises nothing. *)
Theorem get_init_function_only_error (logdir : string)
  (pretrained_model_path : option string)
  (checkpoint_exclude_scopes : option (list string)) (e : exn) :
  raises (get_init_function logdir pretrained_model_path
            checkpoint_exclude_scopes) e ->
  exists path,
    pretrained_model_path = Some path /\
    e = ValueError [VStr ("No model checkpoint file found in directory "
                          ++ path)].
Proof.
  unfold get_init_function.
  destruct pretrained_model_path as [path |]; simpl; [| intros []].
  intros [existing H]. exists path. split; [reflexivity |].
  destruct (truthy existing); simpl in H.
  - destruct H as [_ []].
  - destruct H as [mv [is_dir H]]. destruct is_dir; simpl in H.
    + destruct H as [[ckpt |] H]; simpl in H.
      * destruct H as [_ [fn []]].
      * symmetry. exact H.
    + destruct H as [_ [fn []]].
Qed.

Lemma get_init_function_only_error_witness :
  exists path,
    Some "/models/empty" = Some path /\
    ValueError [VStr "No model checkpoint file found in directory /models/empty"] =
    ValueError [VStr ("No model checkpoint file found in directory " ++ path)].
Proof.
  apply (get_init_function_only_error "/tmp/logdir" (Some "/models/empty")
           None).
  simpl. exists None, [], true, None. reflexivity.
Defined.

(** ** The exclusion loop *)

Lemma startswith_empty (name : string) : startswith name "" = true.
Proof. destruct name; reflexivity. Qed.

Lemma excluded_empty_scope (exclusions : list string) (name : string) :
  In "" exclusions -> excluded exclusions name = true.
Proof.
  intros Hin. apply excluded_iff. exists "". split; [exact Hin |].
  apply startswith_empty.
Qed.

(** X7: the edge cases of the exclusion list.  With no exclusion every
    model variable is restored, in order; an exclusion scope that is empty
    once stripped (a blank argument) is a prefix of every name, so no
    variable is restored. *)
Theorem restore_loop_edge_cases (scopes : list string)
  (model_variables : list variable) :
  restore_loop [] model_variables [] = model_variables /\
  (In "" (map strip scopes) ->
   restore_loop (map strip scopes) model_variables [] = []).
Proof.
  rewrite !restore_loop_filter. simpl. split.
  - induction model_variables as [| v l IH]; simpl; congruence.
  - intros Hin.
    induction model_variables as [| v l IH]; simpl; [reflexivity |].
    rewrite (excluded_empty_scope _ _ Hin). exact IH.
Qed.

Lemma restore_loop_edge_cases_witness :
  restore_loop (map strip ["InceptionV3/Logits"; Sample.blank])
    (Sample.w_model Sample.the_world) [] = [].
Proof.
  apply (proj2 (restore_loop_edge_cases ["InceptionV3/Logits"; Sample.blank]
                  (Sample.w_model Sample.the_world))).
  right. left. vm_compute. reflexivity.
Defined.

(** X8: excluding more scopes never restores more: a variable restored
    under a list of exclusions is restored under every list whose members
    all belong to the first; in particular the order and the repetitions
    of the exclusions do not matter. *)
Theorem restore_loop_antitone (exclusions fewer : list string)
  (model_variables : list variable) (v : variable) :
  incl fewer exclusions ->
  In v (restore_loop exclusions model_variables []) ->
  In v (restore_loop fewer model_variables []).
Proof.
  intros Hincl. rewrite !restore_loop_filter. simpl.
  rewrite !filter_In, !negb_true_iff. intros [Hin Hex]. split; [exact Hin |].
  destruct (excluded fewer (var_op_name v)) eqn:Hf; [| reflexivity].
  apply excluded_iff in Hf. destruct Hf as (x & Hx & Hs).
  assert (Ht : excluded exclusions (var_op_name v) = true).
  { apply excluded_iff. exists x. split; [apply Hincl; exact Hx | exact Hs]. }
  congruence.
Qed.

Lemma restore_loop_antitone_witness :
  In (Sample.var "InceptionV3/Conv2d_1a_3x3/weights")
     (restore_loop ["InceptionV3/Logits"] (Sample.w_model Sample.the_world) []).
Proof.
  apply (restore_loop_antitone ["InceptionV3/AuxLogits"; "InceptionV3/Logits"]
           ["InceptionV3/Logits"] (Sample.w_model Sample.the_world)).
  - intros x [<- | []]. simpl. auto.
  - simpl. auto.
Defined.

(** ** Overrides, applied twice *)

(** X9: replacing the configuration parameters by the command-line values
    is idempotent, and a command line without any of the five options
    leaves the configuration as parsed. *)
Theorem replace_cfg_parameters_idempotent (args : arguments) (cfg : config) :
  replace_cfg_parameters args (replace_cfg_parameters args cfg) =
  replace_cfg_parameters args cfg /\
  (max_number_of_steps args = None ->
   learning_rate_decay_type args = None ->
   learning_rate args = None ->
   batch_size args = None ->
   model_name args = None ->
   replace_cfg_parameters args cfg = cfg).
Proof.
  unfold replace_cfg_parameters. split.
  - destruct (max_number_of_steps args), (learning_rate_decay_type args),
      (learning_rate args), (batch_size args), (model_name args);
      reflexivity.
  - intros -> -> -> -> ->. reflexivity.
Qed.

Lemma replace_cfg_parameters_idempotent_witness :
  replace_cfg_parameters
    {| tfrecords := ["train-00000.tfrecords"]; logdir := "/tmp/logdir";
       config_file := "config_train.yaml"; pretrained_model := None;
       trainable_scopes := None; checkpoint_exclude_scopes := None;
       max_number_of_steps := None; learning_rate_decay_type := None;
       learning_rate := None; batch_size := None; model_name := None |}
    (Sample.cfg "fixed" "sgd" (PInt 32)) =
  Sample.cfg "fixed" "sgd" (PInt 32).
Proof.
  apply (proj2 (replace_cfg_parameters_idempotent
                  {| tfrecords := ["train-00000.tfrecords"];
                     logdir := "/tmp/logdir";
                     config_file := "config_train.yaml";
                     pretrained_model := None;
                     trainable_scopes := None;
                     checkpoint_exclude_scopes := None;
                     max_number_of_steps := None;
                     learning_rate_decay_type := None;
                     learning_rate := None; batch_size := None;
                     model_name := None |}
                  (Sample.cfg "fixed" "sgd" (PInt 32))));
    reflexivity.
Defined.

(** ** Reasoning about every run of a program *)

Lemma holds_run {S R : Type} (h : handler S) (p : prog R)
  (Q : list event -> result R -> Prop) :
  forall (tr : list event) (s : S),
    holds p tr Q ->
    Q (tr ++ trace (run h p s))%list (value (run h p s)).
Proof.
  induction p as [r | e | X c k IH]; intros tr s Hp; simpl in *.
  - rewrite app_nil_r. exact Hp.
  - rewrite app_nil_r. exact Hp.
  - destruct Hp as [Herr Hk].
    destruct (h X c s) as [[x | e] s']; simpl.
    + specialize (IH x (tr ++ [Called c x])%list s' (Hk x)).
      rewrite <- app_assoc in IH. exact IH.
    + rewrite app_nil_r. apply Herr.
Qed.

Lemma holds_bind {A B : Type} (p : prog A) (f : A -> prog B)
  (Q : list event -> result B -> Prop) :
  forall tr,
    holds p tr (fun tr' r =>
                  match r with
                  | Ok a => holds (f a) tr' Q
                  | Err e => Q tr' (Err e)
                  end) ->
    holds (bind p f) tr Q.
Proof.
  induction p as [r | e | X c k IH]; intros tr Hp; simpl in *; auto.
  destruct Hp as [Herr Hk]. split; auto.
Qed.

Lemma holds_mono {R : Type} (p : prog R)
  (P Q : list event -> result R -> Prop) :
  (forall tr r, P tr r -> Q tr r) ->
  forall tr, holds p tr P -> holds p tr Q.
Proof.
  intros HPQ. induction p as [r | e | X c k IH]; intros tr Hp;
    simpl in *; auto.
  destruct Hp as [Herr Hk]. split; auto.
Qed.

Lemma holds_extension {R : Type} (p : prog R)
  (Q : list event -> result R -> Prop) :
  forall tr, (forall ext r, Q (tr ++ ext)%list r) -> holds p tr Q.
Proof.
  induction p as [r | e | X c k IH]; intros tr HQ; simpl.
  - rewrite <- (app_nil_r tr). apply HQ.
  - rewrite <- (app_nil_r tr). apply HQ.
  - split.
    + intros e. rewrite <- (app_nil_r tr). apply HQ.
    + intros x. apply IH. intros ext r. rewrite <- app_assoc. apply HQ.
Qed.

Lemma holds_calls {R : Type} (P : event -> Prop) (p : prog R) :
  calls_satisfy P p ->
  forall tr,
    holds p tr (fun tr' _ => exists ext, tr' = (tr ++ ext)%list /\ Forall P ext).
Proof.
  induction p as [r | e | X c k IH]; intros Hp tr; simpl in *.
  - exists []. rewrite app_nil_r. auto.
  - exists []. rewrite app_nil_r. auto.
  - split.
    + intros e. exists []. rewrite app_nil_r. auto.
    + intros x. destruct (Hp x) as [Hc Hk].
      eapply holds_mono; [| apply (IH x Hk)].
      intros tr' r (ext & -> & Hext). exists (Called c x :: ext).
      rewrite <- app_assoc. auto.
Qed.

Lemma holds_never_returns {R : Type} (p : prog R) :
  never_returns p ->
  forall tr,
    holds p tr (fun tr' r =>
                  (exists ext, tr' = (tr ++ ext)%list) /\ exists e, r = Err e).
Proof.
  induction p as [r | e | X c k IH]; intros Hp tr; simpl in *.
  - contradiction.
  - split; [exists []; rewrite app_nil_r; reflexivity | eauto].
  - split.
    + intros e. split; [exists []; rewrite app_nil_r; reflexivity | eauto].
    + intros x. eapply holds_mono; [| apply (IH x (Hp x))].
      intros tr' r [[ext ->] Herr]. split; [| exact Herr].
      exists (Called c x :: ext). rewrite <- app_assoc. reflexivity.
Qed.

Lemma configure_learning_rate_calls (global_step : tensor) (cfg : config) :
  calls_satisfy helper_call (_configure_learning_rate global_step cfg).
Proof.
  unfold _configure_learning_rate.
  destruct (decay_steps cfg) as [d | e]; simpl; [| exact I].
  string_cases (LEARNING_RATE_DECAY_TYPE cfg); simpl; auto.
Qed.

Lemma configure_optimizer_calls (learning_rate : tensor) (cfg : config) :
  calls_satisfy helper_call (_configure_optimizer learning_rate cfg).
Proof.
  unfold _configure_optimizer.
  string_cases (OPTIMIZER cfg); simpl; auto.
Qed.

Lemma get_trainable_variables_calls (scopes : option (list string)) :
  calls_satisfy helper_call (get_trainable_variables scopes).
Proof.
  destruct scopes as [l |]; simpl; [| auto].
  generalize (@nil variable). induction (map strip l) as [| sc rest IH];
    intros acc; simpl; auto.
Qed.

Lemma get_init_function_calls (logdir : string) (path : option string)
  (scopes : option (list string)) :
  calls_satisfy helper_call (get_init_function logdir path scopes).
Proof.
  unfold get_init_function. destruct path as [p |]; simpl; [| exact I].
  intros existing. split; [exact I |].
  destruct (truthy existing); simpl; [auto |].
  intros mv. split; [exact I |]. intros is_dir. split; [exact I |].
  destruct is_dir; simpl.
  - intros [ckpt |]; simpl; split; auto.
  - auto.
Qed.

Lemma helper_calls_unobserved {A : Type} (f : event -> list A)
  (ext : list event) :
  (forall ev, helper_call ev -> f ev = []) ->
  Forall helper_call ext -> flat_map f ext = [].
Proof.
  intros Hf. induction 1 as [| ev l Hev _ IH]; simpl; [reflexivity |].
  rewrite (Hf ev Hev), IH. reflexivity.
Qed.

Ltac unobserved :=
  intros [X c x]; revert x; destruct c; intros x; simpl; intros H;
  try contradiction; reflexivity.

Lemma helper_no_batch (ev : event) : helper_call ev -> batches_of ev = [].
Proof. revert ev. unobserved. Qed.

Lemma helper_no_network (ev : event) : helper_call ev -> networks_of ev = [].
Proof. revert ev. unobserved. Qed.

Lemma helper_no_loss (ev : event) : helper_call ev -> losses_of ev = [].
Proof. revert ev. unobserved. Qed.

Lemma helper_no_training_loop (ev : event) :
  helper_call ev -> training_loops_of ev = [].
Proof. revert ev. unobserved. Qed.

Lemma learning_rate_raises_for_all (cfg : config) :
  (exists e, decay_steps cfg = Err e) \/
  ~ In (LEARNING_RATE_DECAY_TYPE cfg) decay_types ->
  forall global_step : tensor,
    exists e, _configure_learning_rate global_step cfg = Raise e.
Proof.
  intros H gs.
  destruct (decay_steps cfg) as [d | e] eqn:Hd.
  - destruct H as [[e He] | Hn]; [discriminate |].
    eexists. exact (learning_rate_unrecognized gs cfg d Hd Hn).
  - exists e. unfold _configure_learning_rate. rewrite Hd. reflexivity.
Qed.

(** Every run of [train] whose learning rate cannot be configured. *)
Lemma train_without_schedule (tfrecords : list string) (logdir : string)
  (cfg : config) (pretrained_model_path : option string)
  (trainable_scopes checkpoint_exclude_scopes : option (list string)) :
  (forall global_step : tensor,
     exists e, _configure_learning_rate global_step cfg = Raise e) ->
  holds (train tfrecords logdir cfg pretrained_model_path trainable_scopes
           checkpoint_exclude_scopes) []
    (fun tr r => (exists e, r = Err e) /\ stage_sequence tr = []).
Proof.
  intros Hraise. unfold train. cbn [holds bind call app].
  split; [intros e; split; [eauto | reflexivity] |]. intros [].
  split; [intros e; split; [eauto | reflexivity] |]. intros g.
  split; [intros e; split; [eauto | reflexivity] |]. intros [].
  split; [intros e; split; [eauto | reflexivity] |]. intros gs.
  destruct (Hraise gs) as [e He]. rewrite He. cbn [holds bind].
  split; [eauto | reflexivity].
Qed.

(** X10: when [decay_steps] cannot be evaluated or the decay type is not
    recognized, every run of [train] ends in an error before any stage of
    the graph is entered: no schedule, optimizer, input pipeline or network
    is built. *)
Theorem train_fails_before_building {S : Type} (h : handler S) (s : S)
  (tfrecords : list string) (logdir : string) (cfg : config)
  (pretrained_model_path : option string)
  (trainable_scopes checkpoint_exclude_scopes : option (list string)) :
  (exists e, decay_steps cfg = Err e) \/
  ~ In (LEARNING_RATE_DECAY_TYPE cfg) decay_types ->
  (exists e,
     value (run h (train tfrecords logdir cfg pretrained_model_path
                     trainable_scopes checkpoint_exclude_scopes) s) = Err e)
  /\
  stage_sequence
    (trace (run h (train tfrecords logdir cfg pretrained_model_path
                     trainable_scopes checkpoint_exclude_scopes) s)) = [].
Proof.
  intros H.
  exact (holds_run h _ _ [] s
           (train_without_schedule tfrecords logdir cfg
              pretrained_model_path trainable_scopes
              checkpoint_exclude_scopes
              (learning_rate_raises_for_all cfg H))).
Qed.

Lemma train_fails_before_building_witness :
  (exists e,
     value (run (Sample.framework Sample.the_world)
              (train ["train-00000.tfrecords"] "/tmp/logdir"
                 (Sample.cfg "step" "sgd" (PInt 32)) None None None) 0%N) =
     Err e) /\
  stage_sequence
    (trace (run (Sample.framework Sample.the_world)
              (train ["train-00000.tfrecords"] "/tmp/logdir"
                 (Sample.cfg "step" "sgd" (PInt 32)) None None None) 0%N)) =
  [].
Proof.
  apply (train_fails_before_building (Sample.framework Sample.the_world)
           0%N ["train-00000.tfrecords"] "/tmp/logdir"
           (Sample.cfg "step" "sgd" (PInt 32)) None None None).
  right. simpl. intuition discriminate.
Defined.

(** X11: with an unrecognized optimizer every run of [train] ends in an
    error, and nothing but the learning-rate schedule has been built. *)
Theorem train_unrecognized_optimizer {S : Type} (h : handler S) (s : S)
  (tfrecords : list string) (logdir : string) (cfg : config)
  (pretrained_model_path : option string)
  (trainable_scopes checkpoint_exclude_scopes : option (list string)) :
  ~ In (OPTIMIZER cfg) optimizers ->
  (exists e,
     value (run h (train tfrecords logdir cfg pretrained_model_path
                     trainable_scopes checkpoint_exclude_scopes) s) = Err e)
  /\
  (stage_sequence
     (trace (run h (train tfrecords logdir cfg pretrained_model_path
                      trainable_scopes checkpoint_exclude_scopes) s)) = []
   \/
   stage_sequence
     (trace (run h (train tfrecords logdir cfg pretrained_model_path
                      trainable_scopes checkpoint_exclude_scopes) s)) =
   [Stage.learning_rate]).
Proof.
  intros Hn.
  refine (holds_run h _
            (fun tr r => (exists e, r = Err e) /\
                         (stage_sequence tr = [] \/
                          stage_sequence tr = [Stage.learning_rate]))
            [] s _).
  unfold train. cbn [holds bind call app].
  split; [intros e; split; [eauto | left; reflexivity] |]. intros [].
  split; [intros e; split; [eauto | left; reflexivity] |]. intros g.
  split; [intros e; split; [eauto | left; reflexivity] |]. intros [].
  split; [intros e; split; [eauto | left; reflexivity] |]. intros gs.
  apply holds_bind. unfold _configure_learning_rate.
  destruct (decay_steps cfg) as [d | e]; cbn [holds bind lift];
    [| split; [eauto | left; reflexivity]].
  string_cases (LEARNING_RATE_DECAY_TYPE cfg); cbn [holds bind call app];
    try (split; [intros ?; split; [eauto | left; reflexivity] |];
         intros lr; rewrite (optimizer_unrecognized lr cfg Hn);
         cbn [holds bind]; split; [eauto | right; reflexivity]).
  split; [eauto | left; reflexivity].
Qed.

Lemma train_unrecognized_optimizer_witness :
  (exists e,
     value (run (Sample.framework Sample.the_world)
              (train ["train-00000.tfrecords"] "/tmp/logdir"
                 (Sample.cfg "fixed" "lbfgs" (PInt 32)) None None None) 0%N) =
     Err e) /\
  (stage_sequence
     (trace (run (Sample.framework Sample.the_world)
               (train ["train-00000.tfrecords"] "/tmp/logdir"
                  (Sample.cfg "fixed" "lbfgs" (PInt 32)) None None None)
               0%N)) = []
   \/
   stage_sequence
     (trace (run (Sample.framework Sample.the_world)
               (train ["train-00000.tfrecords"] "/tmp/logdir"
                  (Sample.cfg "fixed" "lbfgs" (PInt 32)) None None None)
               0%N)) = [Stage.learning_rate]).
Proof.
  apply (train_unrecognized_optimizer (Sample.framework Sample.the_world)
           0%N ["train-00000.tfrecords"] "/tmp/logdir"
           (Sample.cfg "fixed" "lbfgs" (PInt 32)) None None None).
  simpl. intuition discriminate.
Defined.

(** ** The batch dictionary *)

Lemma dict_get_in {A : Type} (d : list (string * A)) (key : string) :
  (dict_in key d = true -> exists v, dict_get d key = Ok v) /\
  (dict_in key d = false -> dict_get d key = Err (KeyError key)).
Proof.
  unfold dict_in. induction d as [| [k v] d IH]; simpl.
  - split; [discriminate | reflexivity].
  - destruct (k =? key)%string; simpl; [| exact IH].
    split; [eauto | discriminate].
Qed.

(** X12: the dictionary returned by the input pipeline must hold the keys
    ['labels'] and ['inputs'].  In every run of [train] in which
    [inputs.input_nodes] returns a dictionary without ['labels'], the run
    ends at once in [KeyError('labels')]; with ['labels'] but without
    ['inputs'], the run never completes. *)
Theorem train_batch_keys {S : Type} (h : handler S) (s : S)
  (tfrecords : list string) (logdir : string) (cfg : config)
  (pretrained_model_path : option string)
  (trainable_scopes checkpoint_exclude_scopes : option (list string))
  (batch_dict : list (string * tensor)) (rest : list (list (string * tensor))) :
  flat_map batches_of
    (trace (run h (train tfrecords logdir cfg pretrained_model_path
                     trainable_scopes checkpoint_exclude_scopes) s)) =
  batch_dict :: rest ->
  (dict_in "labels" batch_dict = false ->
   value (run h (train tfrecords logdir cfg pretrained_model_path
                   trainable_scopes checkpoint_exclude_scopes) s) =
   Err (KeyError "labels")) /\
  (dict_in "inputs" batch_dict = false ->
   exists e,
     value (run h (train tfrecords logdir cfg pretrained_model_path
                     trainable_scopes checkpoint_exclude_scopes) s) = Err e).
Proof.
  revert batch_dict rest.
  refine (holds_run h _
            (fun tr r =>
               forall bd rest,
                 flat_map batches_of tr = bd :: rest ->
                 (dict_in "labels" bd = false -> r = Err (KeyError "labels"))
                 /\ (dict_in "inputs" bd = false -> exists e, r = Err e))
            [] s _).
  unfold train. cbn [holds bind call app].
  split; [intros ? ? ? H; discriminate H |]. intros [].
  split; [intros ? ? ? H; discriminate H |]. intros g.
  split; [intros ? ? ? H; discriminate H |]. intros [].
  split; [intros ? ? ? H; discriminate H |]. intros gs.
  apply holds_bind.
  eapply holds_mono; [| apply holds_calls, configure_learning_rate_calls].
  cbv beta. intros tr1 [lr | e] (ext1 & -> & H1);
    [| intros bd rest H; rewrite flat_map_app in H;
       rewrite (helper_calls_unobserved _ _ helper_no_batch H1) in H;
       discriminate H].
  apply holds_bind.
  eapply holds_mono; [| apply holds_calls, configure_optimizer_calls].
  cbv beta. intros tr2 [opt | e] (ext2 & -> & H2);
    [| intros bd rest H; rewrite !flat_map_app in H;
       rewrite (helper_calls_unobserved _ _ helper_no_batch H1),
         (helper_calls_unobserved _ _ helper_no_batch H2) in H;
       discriminate H].
  cbn [holds bind call].
  split; [intros e bd rest H; rewrite !flat_map_app in H;
          rewrite (helper_calls_unobserved _ _ helper_no_batch H1),
            (helper_calls_unobserved _ _ helper_no_batch H2) in H;
          discriminate H |].
  intros bd.
  assert (Hobs : forall ext bd' rest,
            flat_map batches_of
              (((([Called (logging_set_verbosity "DEBUG") tt; Called Graph g;
                   Called (as_default g) tt;
                   Called get_or_create_global_step gs] ++ ext1) ++ ext2) ++
                [Called (input_nodes tfrecords (IMAGE_PROCESSING cfg) None
                           (BATCH_SIZE cfg) (NUM_INPUT_THREADS cfg)
                           (SHUFFLE_QUEUE cfg) (RANDOM_SEED cfg)
                           (QUEUE_CAPACITY cfg) (QUEUE_MIN cfg) true "train")
                   bd]) ++ ext)%list = bd' :: rest ->
            bd' = bd).
  { intros ext bd' rest H. rewrite !flat_map_app in H.
    rewrite (helper_calls_unobserved _ _ helper_no_batch H1),
      (helper_calls_unobserved _ _ helper_no_batch H2) in H.
    simpl in H. injection H as Hbd _. symmetry. exact Hbd. }
  destruct (dict_in "labels" bd) eqn:Hl.
  - destruct (proj1 (dict_get_in bd "labels") Hl) as [labels Hlab].
    rewrite Hlab.
    destruct (dict_in "inputs" bd) eqn:Hi.
    + apply holds_extension. intros ext r bd' rest H.
      rewrite (Hobs ext bd' rest H). split; congruence.
    + eapply holds_mono; [| apply holds_never_returns].
      * intros tr r [[ext ->] Herr] bd' rest H.
        rewrite (Hobs ext bd' rest H). split; [congruence | auto].
      * cbn [bind call lift never_returns].
        rewrite (proj2 (dict_get_in bd "inputs") Hi).
        cbn [bind call lift never_returns]. intros; exact I.
  - rewrite (proj2 (dict_get_in bd "labels") Hl). cbn [holds bind lift].
    intros bd' rest H.
    rewrite <- (app_nil_r (_ ++ [_])%list) in H.
    rewrite (Hobs [] bd' rest H). split; [reflexivity | eauto].
Qed.

(** ** What reaches the training loop *)

Ltac framework_error := intros ? Hdone; discriminate Hdone.
Ltac script_error := intros Hdone; discriminate Hdone.

Ltac step := cbn [holds bind call lift]; split; [framework_error |].

Ltac frame lemma x H :=
  apply holds_bind; eapply holds_mono; [| apply holds_calls, lemma];
  cbv beta; intros ? [x | ?] (? & -> & H); [| script_error].

Lemma get_init_function_holds (logdir : string) (path : option string)
  (scopes : option (list string)) (tr : list event) :
  holds (get_init_function logdir path scopes) tr
    (fun tr' r =>
       (exists ext, tr' = (tr ++ ext)%list /\ Forall helper_call ext) /\
       (path = None -> r = Ok None)).
Proof.
  destruct path as [p |].
  - eapply holds_mono;
      [| apply holds_calls, (get_init_function_calls logdir (Some p) scopes)].
    cbv beta. intros tr' r Hext. split; [exact Hext | discriminate].
  - simpl. split; [| reflexivity]. exists []. rewrite app_nil_r. auto.
Qed.

(** Every completed run of [train] starts the training loop once, for
    [NUM_TRAIN_ITERATIONS] steps. *)
Lemma train_loop_holds (tfrecords : list string) (logdir : string)
  (cfg : config) (pretrained_model_path : option string)
  (trainable_scopes checkpoint_exclude_scopes : option (list string)) :
  holds (train tfrecords logdir cfg pretrained_model_path trainable_scopes
           checkpoint_exclude_scopes) []
    (fun tr r =>
       r = Ok tt ->
       exists init,
         flat_map training_loops_of tr = [(init, NUM_TRAIN_ITERATIONS cfg)] /\
         (pretrained_model_path = None -> init = None)).
Proof.
  unfold train. cbn [holds bind call app].
  split; [framework_error |]. intros [].
  split; [framework_error |]. intros g.
  split; [framework_error |]. intros [].
  split; [framework_error |]. intros gs.
  frame configure_learning_rate_calls lr H1.
  frame configure_optimizer_calls opt H2.
  step. intros bd.
  destruct (dict_get bd "labels") as [labels | e];
    cbn [holds bind call lift]; [| script_error].
  split; [framework_error |]. intros one_hot.
  step. intros input_summaries. step. intros scope_fn.
  step. intros scope. step. intros net_fn.
  destruct (dict_get bd "inputs") as [inputs | e];
    cbn [holds bind call lift]; [| script_error].
  split; [framework_error |]. intros [logits end_points].
  apply holds_bind.
  assert (Hrest : forall tr0,
            flat_map training_loops_of tr0 = [] ->
            holds
                       (call (softmax_cross_entropy scope logits one_hot
                                (PFloat 0) (PFloat 1) None) ;;
                        total_loss <- call get_total_loss ;;
                        ema <- call (ExponentialMovingAverage
                                       (MOVING_AVERAGE_DECAY cfg) gs) ;;
                        variables_to_average <- call get_model_variables ;;
                        maintain_averages_op <-
                          call (ema_apply ema variables_to_average) ;;
                        call (add_to_collection UPDATE_OPS
                                maintain_averages_op) ;;
                        trainable_vars <-
                          get_trainable_variables trainable_scopes ;;
                        train_op <- call (create_train_op total_loss opt
                                            trainable_vars) ;;
                        loss_summary <- call (summary_scalar "total_loss"
                                                total_loss) ;;
                        lr_summary <- call (summary_scalar "learning_rate"
                                              lr) ;;
                        summary_op <- call (summary_merge
                                              ([loss_summary; lr_summary]
                                               ++ input_summaries)) ;;
                        gpu <- call (GPUOptions
                                       (PER_PROCESS_GPU_MEMORY_FRACTION
                                          (SESSION_CONFIG cfg))) ;;
                        sess_config <- call (ConfigProto
                                               (LOG_DEVICE_PLACEMENT
                                                  (SESSION_CONFIG cfg))
                                               true gpu) ;;
                        sv <- call (Saver (MAX_TO_KEEP cfg)
                                      (KEEP_CHECKPOINT_EVERY_N_HOURS cfg)) ;;
                        init <- get_init_function logdir
                                  pretrained_model_path
                                  checkpoint_exclude_scopes ;;
                        call (learning_train train_op logdir init
                                (NUM_TRAIN_ITERATIONS cfg)
                                (SAVE_SUMMARY_SECS cfg)
                                (SAVE_INTERVAL_SECS cfg) sv sess_config
                                summary_op (LOG_EVERY_N_STEPS cfg)))
                       tr0
                       (fun tr r =>
                          r = Ok tt ->
                          exists init,
                            flat_map training_loops_of tr =
                            [(init, NUM_TRAIN_ITERATIONS cfg)] /\
                            (pretrained_model_path = None -> init = None))).
  { intros tr0 Htr0. cbn [holds bind call lift].
    split; [framework_error |]. intros main_loss.
    step. intros total_loss. step. intros ema. step. intros vars.
    step. intros op. step. intros [].
    frame get_trainable_variables_calls trainable_vars H3.
    step. intros train_op. step. intros loss_summary.
    step. intros lr_summary. step. intros summary_op.
    step. intros gpu. step. intros sess_config. step. intros sv.
    apply holds_bind.
    eapply holds_mono; [| apply get_init_function_holds].
    cbv beta. intros tr4 [init | e] [(ext4 & -> & H4) Hinit];
      [| script_error].
    step. intros [] _. exists init. split.
    - rewrite !flat_map_app, Htr0.
      rewrite (helper_calls_unobserved _ _ helper_no_training_loop H3),
        (helper_calls_unobserved _ _ helper_no_training_loop H4).
      reflexivity.
    - intros Hp. specialize (Hinit Hp). congruence. }
  destruct (dict_in "AuxLogits" end_points).
  - destruct (dict_get end_points "AuxLogits") as [aux_logits | e];
      cbn [holds bind call lift]; [| script_error].
    split; [framework_error |]. intros aux_loss.
    apply Hrest. rewrite !flat_map_app.
    rewrite (helper_calls_unobserved _ _ helper_no_training_loop H1),
      (helper_calls_unobserved _ _ helper_no_training_loop H2).
    reflexivity.
  - cbn [holds bind call lift].
    apply Hrest. rewrite !flat_map_app.
    rewrite (helper_calls_unobserved _ _ helper_no_training_loop H1),
      (helper_calls_unobserved _ _ helper_no_training_loop H2).
    reflexivity.
Qed.

(** X13: every run of [train] that completes has started the framework's
    training loop exactly once, for [NUM_TRAIN_ITERATIONS] steps; without a
    pretrained model path the loop is given no init function. *)
Theorem train_starts_training_loop {S : Type} (h : handler S) (s : S)
  (tfrecords : list string) (logdir : string) (cfg : config)
  (pretrained_model_path : option string)
  (trainable_scopes checkpoint_exclude_scopes : option (list string)) :
  value (run h (train tfrecords logdir cfg pretrained_model_path
                  trainable_scopes checkpoint_exclude_scopes) s) = Ok tt ->
  exists init,
    flat_map training_loops_of
      (trace (run h (train tfrecords logdir cfg pretrained_model_path
                       trainable_scopes checkpoint_exclude_scopes) s)) =
    [(init, NUM_TRAIN_ITERATIONS cfg)] /\
    (pretrained_model_path = None -> init = None).
Proof.
  exact (holds_run h _ _ [] s
           (train_loop_holds tfrecords logdir cfg pretrained_model_path
              trainable_scopes checkpoint_exclude_scopes)).
Qed.

Lemma train_starts_training_loop_witness :
  exists init,
    flat_map training_loops_of
      (trace (run (Sample.framework Sample.the_world)
                (train ["train-00000.tfrecords"] "/tmp/logdir"
                   (Sample.cfg "fixed" "sgd" (PInt 32)) None None None)
                0%N)) =
    [(init, PInt 1000000)] /\
    (@None string = None -> init = None).
Proof.
  apply (train_starts_training_loop (Sample.framework Sample.the_world) 0%N
           ["train-00000.tfrecords"] "/tmp/logdir"
           (Sample.cfg "fixed" "sgd" (PInt 32)) None None None).
  vm_compute. reflexivity.
Defined.

Lemma replace_cfg_parameters_fields (args : arguments) (cfg : config) :
  NUM_TRAIN_ITERATIONS (replace_cfg_parameters args cfg) =
  match max_number_of_steps args with
  | Some n => PInt n
  | None => NUM_TRAIN_ITERATIONS cfg
  end /\
  BATCH_SIZE (replace_cfg_parameters args cfg) =
  match batch_size args with
  | Some n => PInt n
  | None => BATCH_SIZE cfg
  end.
Proof.
  unfold replace_cfg_parameters.
  destruct (max_number_of_steps args), (learning_rate_decay_type args),
    (learning_rate args), (batch_size args), (model_name args);
    split; reflexivity.
Qed.

Lemma run_main {S : Type} (h : handler S) (s s1 s2 : S) (args : arguments)
  (cfg : config) :
  h _ parse_args s = (Ok args, s1) ->
  h _ (parse_config_file (config_file args)) s1 = (Ok cfg, s2) ->
  run h main s =
  {| trace :=
       Called parse_args args
       :: Called (parse_config_file (config_file args)) cfg
       :: trace (run h (train (tfrecords args) (logdir args)
                          (replace_cfg_parameters args cfg)
                          (pretrained_model args) (trainable_scopes args)
                          (checkpoint_exclude_scopes args)) s2);
     value := value (run h (train (tfrecords args) (logdir args)
                              (replace_cfg_parameters args cfg)
                              (pretrained_model args) (trainable_scopes args)
                              (checkpoint_exclude_scopes args)) s2);
     final := final (run h (train (tfrecords args) (logdir args)
                              (replace_cfg_parameters args cfg)
                              (pretrained_model args) (trainable_scopes args)
                              (checkpoint_exclude_scopes args)) s2) |}.
Proof.
  intros H1 H2. unfold main. cbn [run bind call].
  rewrite H1. cbn [run bind call trace value final].
  rewrite H2. reflexivity.
Qed.

(** X14: from the command line to the training loop.  In every run of
    [main] that completes, the training loop runs for
    [--max_number_of_steps] steps when the option is given and for the
    [NUM_TRAIN_ITERATIONS] of the configuration file otherwise, and
    without [--pretrained_model] it is given no init function. *)
Theorem main_number_of_steps {S : Type} (h : handler S) (s s1 s2 : S)
  (args : arguments) (cfg : config) :
  h _ parse_args s = (Ok args, s1) ->
  h _ (parse_config_file (config_file args)) s1 = (Ok cfg, s2) ->
  value (run h main s) = Ok tt ->
  exists init,
    flat_map training_loops_of (trace (run h main s)) =
    [(init,
      match max_number_of_steps args with
      | Some n => PInt n
      | None => NUM_TRAIN_ITERATIONS cfg
      end)] /\
    (pretrained_model args = None -> init = None).
Proof.
  intros H1 H2. rewrite (run_main h s s1 s2 args cfg H1 H2).
  cbn [trace value flat_map training_loops_of app]. intros Hv.
  rewrite <- (proj1 (replace_cfg_parameters_fields args cfg)).
  exact (holds_run h _ _ [] s2
           (train_loop_holds (tfrecords args) (logdir args)
              (replace_cfg_parameters args cfg) (pretrained_model args)
              (trainable_scopes args) (checkpoint_exclude_scopes args)) Hv).
Qed.

Lemma main_number_of_steps_witness :
  exists init,
    flat_map training_loops_of
      (trace (run (Sample.framework Sample.the_world) main 0%N)) =
    [(init, PInt 5000)] /\
    (Some "/models/inception_v3" = None -> init = None).
Proof.
  apply (main_number_of_steps (Sample.framework Sample.the_world)
           0%N 0%N 0%N Sample.args
           (Sample.cfg "exponential" "rmsprop" (PInt 64)));
    vm_compute; reflexivity.
Defined.

Lemma int_zero_batch_raises (global_step : tensor) (cfg : config) :
  BATCH_SIZE cfg = PInt 0 ->
  _configure_learning_rate global_step cfg = Raise ZeroDivisionError.
Proof.
  unfold _configure_learning_rate, decay_steps, PyArith.truediv.
  intros ->. destruct (NUM_TRAIN_EXAMPLES cfg) as [x | f]; reflexivity.
Qed.

(** X15: [--batch_size 0] stops [main] before anything is built: whatever
    the configuration file holds, configuring the learning rate raises
    [ZeroDivisionError], so every run of [main] ends in an error without
    entering any stage of the graph. *)
Theorem main_zero_batch_size {S : Type} (h : handler S) (s s1 s2 : S)
  (args : arguments) (cfg : config) :
  h _ parse_args s = (Ok args, s1) ->
  h _ (parse_config_file (config_file args)) s1 = (Ok cfg, s2) ->
  batch_size args = Some 0 ->
  (forall global_step : tensor,
     _configure_learning_rate global_step (replace_cfg_parameters args cfg) =
     Raise ZeroDivisionError) /\
  (exists e, value (run h main s) = Err e) /\
  stage_sequence (trace (run h main s)) = [].
Proof.
  intros H1 H2 Hb.
  assert (Hz : forall gs : tensor,
            _configure_learning_rate gs (replace_cfg_parameters args cfg) =
            Raise ZeroDivisionError).
  { intros gs. apply int_zero_batch_raises.
    rewrite (proj2 (replace_cfg_parameters_fields args cfg)), Hb.
    reflexivity. }
  split; [exact Hz |].
  rewrite (run_main h s s1 s2 args cfg H1 H2). cbn [trace value].
  exact (holds_run h _ _ [] s2
           (train_without_schedule (tfrecords args) (logdir args)
              (replace_cfg_parameters args cfg) (pretrained_model args)
              (trainable_scopes args) (checkpoint_exclude_scopes args)
              (fun gs => ex_intro _ ZeroDivisionError (Hz gs)))).
Qed.

Lemma main_zero_batch_size_witness :
  (exists e,
     value (run (Sample.framework
                   (world_of (args_with_batch_size 0)
                      (Sample.w_batch Sample.the_world) []))
              main 0%N) = Err e) /\
  stage_sequence
    (trace (run (Sample.framework
                   (world_of (args_with_batch_size 0)
                      (Sample.w_batch Sample.the_world) []))
              main 0%N)) = [].
Proof.
  apply (main_zero_batch_size
           (Sample.framework
              (world_of (args_with_batch_size 0)
                 (Sample.w_batch Sample.the_world) []))
           0%N 0%N 0%N (args_with_batch_size 0)
           (Sample.cfg "exponential" "rmsprop" (PInt 64)));
    reflexivity.
Defined.

Lemma train_batch_keys_witness :
  value (run (Sample.framework
                (world_of Sample.args [("inputs", Handle 2000%N)] []))
           (train ["train-00000.tfrecords"] "/tmp/logdir"
              (Sample.cfg "fixed" "sgd" (PInt 32)) None None None) 0%N) =
  Err (KeyError "labels").
Proof.
  apply (train_batch_keys
           (Sample.framework
              (world_of Sample.args [("inputs", Handle 2000%N)] []))
           0%N ["train-00000.tfrecords"] "/tmp/logdir"
           (Sample.cfg "fixed" "sgd" (PInt 32)) None None None
           [("inputs", Handle 2000%N)] []);
    reflexivity.
Defined.

(** ** The losses *)

Lemma helper_unobserved_network (ext : list event) :
  Forall helper_call ext -> flat_map networks_of ext = [].
Proof. apply helper_calls_unobserved. exact helper_no_network. Qed.

Lemma helper_unobserved_loss (ext : list event) :
  Forall helper_call ext -> flat_map losses_of ext = [].
Proof. apply helper_calls_unobserved. exact helper_no_loss. Qed.

Lemma train_losses_hold (tfrecords : list string) (logdir : string)
  (cfg : config) (pretrained_model_path : option string)
  (trainable_scopes checkpoint_exclude_scopes : option (list string)) :
  holds (train tfrecords logdir cfg pretrained_model_path trainable_scopes
           checkpoint_exclude_scopes) []
    (fun tr r =>
       r = Ok tt ->
       exists logits end_points,
         flat_map networks_of tr = [(logits, end_points)] /\
         flat_map losses_of tr =
         (aux_losses end_points ++ [(logits, PFloat 1, None)])%list).
Proof.
  unfold train. cbn [holds bind call app].
  split; [framework_error |]. intros [].
  split; [framework_error |]. intros g.
  split; [framework_error |]. intros [].
  split; [framework_error |]. intros gs.
  frame configure_learning_rate_calls lr H1.
  frame configure_optimizer_calls opt H2.
  step. intros bd.
  destruct (dict_get bd "labels") as [labels | e];
    cbn [holds bind call lift]; [| script_error].
  split; [framework_error |]. intros one_hot.
  step. intros input_summaries. step. intros scope_fn.
  step. intros scope. step. intros net_fn.
  destruct (dict_get bd "inputs") as [inputs | e];
    cbn [holds bind call lift]; [| script_error].
  split; [framework_error |]. intros [logits end_points].
  apply holds_bind.
  assert (Hrest : forall tr0,
            flat_map networks_of tr0 = [(logits, end_points)] ->
            flat_map losses_of tr0 = aux_losses end_points ->
            holds
              (call (softmax_cross_entropy scope logits one_hot
                       (PFloat 0) (PFloat 1) None) ;;
               total_loss <- call get_total_loss ;;
               ema <- call (ExponentialMovingAverage
                              (MOVING_AVERAGE_DECAY cfg) gs) ;;
               variables_to_average <- call get_model_variables ;;
               maintain_averages_op <-
                 call (ema_apply ema variables_to_average) ;;
               call (add_to_collection UPDATE_OPS maintain_averages_op) ;;
               trainable_vars <- get_trainable_variables trainable_scopes ;;
               train_op <- call (create_train_op total_loss opt
                                   trainable_vars) ;;
               loss_summary <- call (summary_scalar "total_loss"
                                       total_loss) ;;
               lr_summary <- call (summary_scalar "learning_rate" lr) ;;
               summary_op <- call (summary_merge
                                     ([loss_summary; lr_summary]
                                      ++ input_summaries)) ;;
               gpu <- call (GPUOptions
                              (PER_PROCESS_GPU_MEMORY_FRACTION
                                 (SESSION_CONFIG cfg))) ;;
               sess_config <- call (ConfigProto
                                      (LOG_DEVICE_PLACEMENT
                                         (SESSION_CONFIG cfg))
                                      true gpu) ;;
               sv <- call (Saver (MAX_TO_KEEP cfg)
                             (KEEP_CHECKPOINT_EVERY_N_HOURS cfg)) ;;
               init <- get_init_function logdir pretrained_model_path
                         checkpoint_exclude_scopes ;;
               call (learning_train train_op logdir init
                       (NUM_TRAIN_ITERATIONS cfg) (SAVE_SUMMARY_SECS cfg)
                       (SAVE_INTERVAL_SECS cfg) sv sess_config summary_op
                       (LOG_EVERY_N_STEPS cfg)))
              tr0
              (fun tr r =>
                 r = Ok tt ->
                 exists logits end_points,
                   flat_map networks_of tr = [(logits, end_points)] /\
                   flat_map losses_of tr =
                   (aux_losses end_points ++ [(logits, PFloat 1, None)])%list)).
  { intros tr0 Hnet Hloss. cbn [holds bind call lift].
    split; [framework_error |]. intros main_loss.
    step. intros total_loss. step. intros ema. step. intros vars.
    step. intros op. step. intros [].
    frame get_trainable_variables_calls trainable_vars H3.
    step. intros train_op. step. intros loss_summary.
    step. intros lr_summary. step. intros summary_op.
    step. intros gpu. step. intros sess_config. step. intros sv.
    frame get_init_function_calls init H4.
    step. intros [] _. exists logits, end_points.
    rewrite !flat_map_app, Hnet, Hloss.
    rewrite !(helper_unobserved_network _ H3),
      !(helper_unobserved_network _ H4),
      !(helper_unobserved_loss _ H3), !(helper_unobserved_loss _ H4).
    simpl. rewrite !app_nil_r. split; reflexivity. }
  match goal with
  | |- holds _ ?tr _ =>
      assert (Hnet : flat_map networks_of tr = [(logits, end_points)] /\
                     flat_map losses_of tr = [])
  end.
  { rewrite !flat_map_app.
    rewrite !(helper_unobserved_network _ H1),
      !(helper_unobserved_network _ H2),
      !(helper_unobserved_loss _ H1), !(helper_unobserved_loss _ H2).
    split; reflexivity. }
  destruct Hnet as [Hnet Hloss].
  unfold aux_losses in *.
  destruct (dict_in "AuxLogits" end_points) eqn:Haux.
  - destruct (dict_get end_points "AuxLogits") as [aux_logits | e];
      cbn [holds bind call lift]; [| script_error].
    split; [framework_error |]. intros aux_loss.
    apply Hrest; rewrite flat_map_app; [rewrite Hnet | rewrite Hloss];
      reflexivity.
  - rewrite (proj2 (dict_get_in end_points "AuxLogits") Haux) in *.
    cbn [holds bind call lift]. apply Hrest; assumption.
Qed.

(** X16: every run of [train] that completes built the network once and
    requested the losses in this order: when the end points hold
    ['AuxLogits'], the auxiliary loss on them with weight 0.4 and scope
    ['aux_loss'], then in every case the main loss on the logits with
    weight 1.0 and no scope; no other loss is requested. *)
Theorem train_losses {S : Type} (h : handler S) (s : S)
  (tfrecords : list string) (logdir : string) (cfg : config)
  (pretrained_model_path : option string)
  (trainable_scopes checkpoint_exclude_scopes : option (list string)) :
  value (run h (train tfrecords logdir cfg pretrained_model_path
                  trainable_scopes checkpoint_exclude_scopes) s) = Ok tt ->
  exists logits end_points,
    flat_map networks_of
      (trace (run h (train tfrecords logdir cfg pretrained_model_path
                       trainable_scopes checkpoint_exclude_scopes) s)) =
    [(logits, end_points)] /\
    flat_map losses_of
      (trace (run h (train tfrecords logdir cfg pretrained_model_path
                       trainable_scopes checkpoint_exclude_scopes) s)) =
    (aux_losses end_points ++ [(logits, PFloat 1, None)])%list.
Proof.
  exact (holds_run h _ _ [] s
           (train_losses_hold tfrecords logdir cfg pretrained_model_path
              trainable_scopes checkpoint_exclude_scopes)).
Qed.

Lemma train_losses_witness :
  exists logits end_points,
    flat_map networks_of
      (trace (run (Sample.framework Sample.the_world)
                (train ["train-00000.tfrecords"] "/tmp/logdir"
                   (Sample.cfg "fixed" "sgd" (PInt 32)) None None None)
                0%N)) =
    [(logits, end_points)] /\
    flat_map losses_of
      (trace (run (Sample.framework Sample.the_world)
                (train ["train-00000.tfrecords"] "/tmp/logdir"
                   (Sample.cfg "fixed" "sgd" (PInt 32)) None None None)
                0%N)) =
    (aux_losses end_points ++ [(logits, PFloat 1, None)])%list.
Proof.
  apply (train_losses (Sample.framework Sample.the_world) 0%N
           ["train-00000.tfrecords"] "/tmp/logdir"
           (Sample.cfg "fixed" "sgd" (PInt 32)) None None None).
  vm_compute. reflexivity.
Defined.

(** ** Exclusion is by scope *)

Lemma startswith_app (name scope suffix : string) :
  startswith name scope = true ->
  startswith (name ++ suffix) scope = true.
Proof.
  unfold startswith. revert scope.
  induction name as [| b name IH]; intros [| a scope]; simpl.
  - intros _. destruct suffix; reflexivity.
  - discriminate.
  - reflexivity.
  - destruct (ascii_dec a b); [apply IH | discriminate].
Qed.

(** X17: exclusion is by scope: a name that starts with an op name
    excluded from the restore is excluded too, so excluding a scope
    excludes every variable below it. *)
Theorem excluded_below (exclusions : list string) (name suffix : string) :
  excluded exclusions name = true ->
  excluded exclusions (name ++ suffix) = true.
Proof.
  rewrite !excluded_iff. intros (scope & Hin & Hs).
  exists scope. split; [exact Hin |]. apply startswith_app. exact Hs.
Qed.

Lemma excluded_below_witness :
  excluded ["InceptionV3/Logits"] ("InceptionV3/Logits" ++ "/Conv2d_1c_1x1/biases")
  = true.
Proof.
  apply (excluded_below ["InceptionV3/Logits"] "InceptionV3/Logits"
           "/Conv2d_1c_1x1/biases").
  reflexivity.
Defined.
